(** * web3diag: the trace collector and its reporters

    A shallow embedding of [StatsCollector] (the event-driven trace
    collector and byte-counting sink), of the four reporters
    ([ConnectionReporter], [HeaderReporter], [IpfsGwReporter],
    [SaturnReporter]) and of the dispatch loop of [main], followed by the
    properties of the specification that were checked against them. *)

From Stdlib Require Import ZArith Lia List Ascii String DecimalString HexadecimalString.
From Stdlib Require Import Floats.SpecFloat.
From stdpp Require Import base option list strings gmap fin_maps sorting.

Local Open Scope Z_scope.

(** ** Go base types *)

(** [uint64] and [int64] arithmetic wraps around. *)
Definition wrap_u64 (z : Z) : Z := z mod 2 ^ 64.
Definition wrap_i64 (z : Z) : Z := (z + 2 ^ 63) mod 2 ^ 64 - 2 ^ 63.

(** A Go slice is [nil] or a (possibly empty) sequence of elements; the
    reporters compare header values with [nil], so the two are kept
    apart: [None] is the nil slice. *)
Abbreviation Slice A := (option (list A)).

(** [range sl] and [len(sl)] treat the nil slice as empty. *)
Definition elems {A} (sl : Slice A) : list A := default [] sl.

(** [append(sl, x)] always yields a non-nil slice. *)
Definition append {A} (sl : Slice A) (x : A) : Slice A := Some (elems sl ++ [x]).

(** The Go [error] interface: [nil], or an error with its message. *)
Definition error : Type := option string.
Definition errors_New (msg : string) : error := Some msg.

(** [net.Addr] is an interface; a value of it is [nil] ([None]) or an
    address with its two methods. *)
Record Addr := { Addr_Network : string; Addr_String : string }.

(** [net.IPAddr], with the IP in the textual form [fmt] prints. *)
Record IPAddr := { IP : string; Zone : string }.

(** [http.Header], [map[string][]string].  A nil map reads like the
    empty map, and the reporters only read. *)
Abbreviation Header := (gmap string (Slice string)).

(** [h[k]]: the zero value (the nil slice) when the key is missing. *)
Definition hdr (h : Header) (k : string) : Slice string := default None (h !! k).

(** [time.Time] as nanoseconds since the Unix epoch. *)
Definition Time : Type := Z.
Definition Unix (t : Time) : Z := t / 1000000000.
Definition UnixNano (t : Time) : Z := wrap_i64 t.

(** ** The collector *)

Module Dns.
Record t := mk { StartTime : Z; EndTime : Z; Host : string; Addrs : Slice IPAddr }.
End Dns.

Module Tls.
Record t := mk { StartTime : Z; EndTime : Z; Version : Z; ServerName : string;
                 CipherSuite : Z }.
End Tls.

Module Connection.
Record t := mk { StartTime : Z; EndTime : Z; Protocol : string; Address : string;
                 Error : error }.
End Connection.

Module Session.
Record t := mk { StartTime : Z; EndTime : Z; HostPort : string;
                 Local : option Addr; Remote : option Addr }.
End Session.

Module Request.
Record t := mk { StartTime : Z; Error : error }.
End Request.

Record StatsCollector := mkStats {
  TotalBytes : Z;
  CurrentSecond : Z;
  CurrentSecBytes : Z;
  PerSecond : Slice Z;
  StartTime : Z;
  EndTime : Z;
  Dns : Dns.t;
  Tls : Tls.t;
  Connection : Connection.t;
  Session : Session.t;
  Request : Request.t;
  FirstByteTime : Z;
  RequestHeaders : Header;
  ResponseHeaders : Header
}.

(** [&StatsCollector{}]: every field at its zero value. *)
Definition zero_collector : StatsCollector :=
  mkStats 0 0 0 None 0 0
    (Dns.mk 0 0 "" None) (Tls.mk 0 0 0 "" 0) (Connection.mk 0 0 "" "" None)
    (Session.mk 0 0 "" None None) (Request.mk 0 None) 0 ∅ ∅.

(** Field assignments [c.F = v]. *)
Definition set_TotalBytes (v : Z) (c : StatsCollector) : StatsCollector :=
  mkStats v (CurrentSecond c) (CurrentSecBytes c) (PerSecond c) (StartTime c) (EndTime c)
    (Dns c) (Tls c) (Connection c) (Session c) (Request c) (FirstByteTime c)
    (RequestHeaders c) (ResponseHeaders c).
Definition set_CurrentSecond (v : Z) (c : StatsCollector) : StatsCollector :=
  mkStats (TotalBytes c) v (CurrentSecBytes c) (PerSecond c) (StartTime c) (EndTime c)
    (Dns c) (Tls c) (Connection c) (Session c) (Request c) (FirstByteTime c)
    (RequestHeaders c) (ResponseHeaders c).
Definition set_CurrentSecBytes (v : Z) (c : StatsCollector) : StatsCollector :=
  mkStats (TotalBytes c) (CurrentSecond c) v (PerSecond c) (StartTime c) (EndTime c)
    (Dns c) (Tls c) (Connection c) (Session c) (Request c) (FirstByteTime c)
    (RequestHeaders c) (ResponseHeaders c).
Definition set_PerSecond (v : Slice Z) (c : StatsCollector) : StatsCollector :=
  mkStats (TotalBytes c) (CurrentSecond c) (CurrentSecBytes c) v (StartTime c) (EndTime c)
    (Dns c) (Tls c) (Connection c) (Session c) (Request c) (FirstByteTime c)
    (RequestHeaders c) (ResponseHeaders c).
Definition set_StartTime (v : Z) (c : StatsCollector) : StatsCollector :=
  mkStats (TotalBytes c) (CurrentSecond c) (CurrentSecBytes c) (PerSecond c) v (EndTime c)
    (Dns c) (Tls c) (Connection c) (Session c) (Request c) (FirstByteTime c)
    (RequestHeaders c) (ResponseHeaders c).
Definition set_EndTime (v : Z) (c : StatsCollector) : StatsCollector :=
  mkStats (TotalBytes c) (CurrentSecond c) (CurrentSecBytes c) (PerSecond c) (StartTime c) v
    (Dns c) (Tls c) (Connection c) (Session c) (Request c) (FirstByteTime c)
    (RequestHeaders c) (ResponseHeaders c).
Definition set_Dns (v : Dns.t) (c : StatsCollector) : StatsCollector :=
  mkStats (TotalBytes c) (CurrentSecond c) (CurrentSecBytes c) (PerSecond c) (StartTime c)
    (EndTime c) v (Tls c) (Connection c) (Session c) (Request c) (FirstByteTime c)
    (RequestHeaders c) (ResponseHeaders c).
Definition set_Tls (v : Tls.t) (c : StatsCollector) : StatsCollector :=
  mkStats (TotalBytes c) (CurrentSecond c) (CurrentSecBytes c) (PerSecond c) (StartTime c)
    (EndTime c) (Dns c) v (Connection c) (Session c) (Request c) (FirstByteTime c)
    (RequestHeaders c) (ResponseHeaders c).
Definition set_Connection (v : Connection.t) (c : StatsCollector) : StatsCollector :=
  mkStats (TotalBytes c) (CurrentSecond c) (CurrentSecBytes c) (PerSecond c) (StartTime c)
    (EndTime c) (Dns c) (Tls c) v (Session c) (Request c) (FirstByteTime c)
    (RequestHeaders c) (ResponseHeaders c).
Definition set_Session (v : Session.t) (c : StatsCollector) : StatsCollector :=
  mkStats (TotalBytes c) (CurrentSecond c) (CurrentSecBytes c) (PerSecond c) (StartTime c)
    (EndTime c) (Dns c) (Tls c) (Connection c) v (Request c) (FirstByteTime c)
    (RequestHeaders c) (ResponseHeaders c).
Definition set_Request (v : Request.t) (c : StatsCollector) : StatsCollector :=
  mkStats (TotalBytes c) (CurrentSecond c) (CurrentSecBytes c) (PerSecond c) (StartTime c)
    (EndTime c) (Dns c) (Tls c) (Connection c) (Session c) v (FirstByteTime c)
    (RequestHeaders c) (ResponseHeaders c).
Definition set_FirstByteTime (v : Z) (c : StatsCollector) : StatsCollector :=
  mkStats (TotalBytes c) (CurrentSecond c) (CurrentSecBytes c) (PerSecond c) (StartTime c)
    (EndTime c) (Dns c) (Tls c) (Connection c) (Session c) (Request c) v
    (RequestHeaders c) (ResponseHeaders c).
Definition set_RequestHeaders (v : Header) (c : StatsCollector) : StatsCollector :=
  mkStats (TotalBytes c) (CurrentSecond c) (CurrentSecBytes c) (PerSecond c) (StartTime c)
    (EndTime c) (Dns c) (Tls c) (Connection c) (Session c) (Request c) (FirstByteTime c)
    v (ResponseHeaders c).
Definition set_ResponseHeaders (v : Header) (c : StatsCollector) : StatsCollector :=
  mkStats (TotalBytes c) (CurrentSecond c) (CurrentSecBytes c) (PerSecond c) (StartTime c)
    (EndTime c) (Dns c) (Tls c) (Connection c) (Session c) (Request c) (FirstByteTime c)
    (RequestHeaders c) v.

(** *** Mutators

    Every mutator reads the wall clock; the reading is an argument.  The
    [log.Printf] lines write to the process log and touch no field, so
    they are left out. *)

(** [Write]: the byte sink.  Returns [(n, nil)] and the updated collector. *)
Definition Write (now : Time) (p : list Byte.byte) (c : StatsCollector)
  : (Z * error) * StatsCollector :=
  let n := Z.of_nat (length p) in
  let c := set_TotalBytes (wrap_u64 (TotalBytes c + n)) c in
  let curr := Unix now in
  let c :=
    if curr >? CurrentSecond c then
      let c := set_PerSecond (append (PerSecond c) (CurrentSecBytes c)) c in
      let c := set_CurrentSecBytes 0 c in
      set_CurrentSecond curr c
    else c in
  let c := set_CurrentSecBytes (wrap_u64 (CurrentSecBytes c + n)) c in
  ((n, None), c).

Definition SetRequestHeaders (h : Header) (c : StatsCollector) : StatsCollector :=
  set_RequestHeaders h c.

Definition SetResponseHeaders (h : Header) (c : StatsCollector) : StatsCollector :=
  set_ResponseHeaders h c.

Definition StartDns (now : Time) (host : string) (c : StatsCollector) : StatsCollector :=
  set_Dns (Dns.mk (UnixNano now) (Dns.EndTime (Dns c)) host (Dns.Addrs (Dns c))) c.

Definition EndDns (now : Time) (addrs : Slice IPAddr) (c : StatsCollector) : StatsCollector :=
  set_Dns (Dns.mk (Dns.StartTime (Dns c)) (UnixNano now) (Dns.Host (Dns c)) addrs) c.

Definition WroteRequest (now : Time) (e : error) (c : StatsCollector) : StatsCollector :=
  set_Request (Request.mk (UnixNano now) e) c.

Definition StartConnect (now : Time) (network addr : string) (c : StatsCollector)
  : StatsCollector :=
  set_Connection
    (Connection.mk (UnixNano now) (Connection.EndTime (Connection c)) network addr
       (Connection.Error (Connection c))) c.

Definition EndConnect (now : Time) (network addr : string) (err : error)
    (c : StatsCollector) : StatsCollector :=
  set_Connection
    (Connection.mk (Connection.StartTime (Connection c)) (UnixNano now) network addr err) c.

Definition StartSession (now : Time) (hostPort : string) (c : StatsCollector)
  : StatsCollector :=
  set_Session
    (Session.mk (UnixNano now) (Session.EndTime (Session c)) hostPort
       (Session.Local (Session c)) (Session.Remote (Session c))) c.

Definition GotSession (now : Time) (local remote : option Addr) (c : StatsCollector)
  : StatsCollector :=
  set_Session
    (Session.mk (Session.StartTime (Session c)) (UnixNano now)
       (Session.HostPort (Session c)) local remote) c.

Definition FirstByteReceived (now : Time) (c : StatsCollector) : StatsCollector :=
  set_CurrentSecond (Unix now) (set_FirstByteTime (UnixNano now) c).

Definition StartTls (now : Time) (c : StatsCollector) : StatsCollector :=
  set_Tls
    (Tls.mk (UnixNano now) (Tls.EndTime (Tls c)) (Tls.Version (Tls c))
       (Tls.ServerName (Tls c)) (Tls.CipherSuite (Tls c))) c.

Definition EndTls (now : Time) (v s : Z) (n : string) (c : StatsCollector) : StatsCollector :=
  set_Tls (Tls.mk (Tls.StartTime (Tls c)) (UnixNano now) v n s) c.

Definition Start (now : Time) (c : StatsCollector) : StatsCollector :=
  set_StartTime (UnixNano now) c.

Definition Stop (now : Time) (c : StatsCollector) : StatsCollector :=
  set_EndTime (UnixNano now) c.

Definition DurationNS (c : StatsCollector) : Z := wrap_i64 (EndTime c - StartTime c).

Definition TotalBytesTransferred (c : StatsCollector) : Z := TotalBytes c.

(** ** Formatting ([fmt]) *)

(** The line feed of the format strings. *)
Definition nl : string := String (ascii_of_nat 10) EmptyString.

(** [%d] of a non-negative integer, and [%x] (lower-case hexadecimal). *)
Definition fmt_d (n : Z) : string :=
  DecimalString.NilZero.string_of_uint (N.to_uint (Z.to_N n)).
Definition fmt_x (n : Z) : string :=
  HexadecimalString.NilZero.string_of_uint (N.to_hex_uint (Z.to_N n)).

(** [float64] is IEEE 754 binary64: 53 bits of precision, rounding to
    nearest even. *)
Definition float64 : Type := spec_float.
Definition float64_of_int (z : Z) : float64 := binary_normalize 53 1024 z 0 false.
Definition f64_sub : float64 -> float64 -> float64 := SFsub 53 1024.
Definition f64_div : float64 -> float64 -> float64 := SFdiv 53 1024.

(** The nearest integer to [num / den] ([0 < den]), ties to even. *)
Definition round_half_even (num den : Z) : Z :=
  let q := num / den in
  match (2 * (num mod den)) ?= den with
  | Lt => q
  | Gt => q + 1
  | Eq => if Z.even q then q else q + 1
  end.

(** Six digits, zero padded. *)
Definition pad6 (n : Z) : string :=
  match fmt_d (1000000 + n) with
  | String _ rest => rest
  | EmptyString => EmptyString
  end.

(** [%f]: the exact value of the float rounded to six decimals. *)
Definition fmt_f (x : float64) : string :=
  match x with
  | S754_nan => "NaN"
  | S754_infinity s => if s then "-Inf" else "+Inf"
  | S754_zero s => (if s then "-" else "") +:+ "0.000000"
  | S754_finite s m e =>
      let q :=
        if 0 <=? e then Z.pos m * 1000000 * 2 ^ e
        else round_half_even (Z.pos m * 1000000) (2 ^ (- e)) in
      (if s then "-" else "") +:+ fmt_d (q / 1000000) +:+ "." +:+ pad6 (q mod 1000000)
  end.

(** [%s] of a [net.IPAddr] value and of a slice of them. *)
Definition fmt_IPAddr (a : IPAddr) : string := "{" +:+ IP a +:+ " " +:+ Zone a +:+ "}".
Definition fmt_Addrs (sl : Slice IPAddr) : string :=
  "[" +:+ String.concat " " (fmt_IPAddr <$> elems sl) +:+ "]".

(** ** Panics

    A Go expression either yields a value or panics. *)
Inductive Outcome (A : Type) : Type :=
  | Done (a : A)
  | Panicked (msg : string).
Arguments Done {A} a.
Arguments Panicked {A} msg.

#[export] Instance Outcome_ret : MRet Outcome := fun _ a => Done a.
#[export] Instance Outcome_bind : MBind Outcome := fun _ _ f m =>
  match m with
  | Done a => f a
  | Panicked msg => Panicked msg
  end.

Definition nil_dereference : string :=
  "runtime error: invalid memory address or nil pointer dereference".
Definition index_out_of_range : string :=
  "runtime error: index out of range [0] with length 0".

(** [a.String()] on an interface value: a nil interface panics. *)
Definition call_String (a : option Addr) : Outcome string :=
  match a with
  | Some a => Done (Addr_String a)
  | None => Panicked nil_dereference
  end.

(** [sl[0]]. *)
Definition index0 (sl : Slice string) : Outcome string :=
  match elems sl with
  | x :: _ => Done x
  | [] => Panicked index_out_of_range
  end.

(** [sl == nil]. *)
Definition is_nil {A} (sl : Slice A) : bool :=
  match sl with
  | None => true
  | Some _ => false
  end.

(** ** The table writer

    The reporters hand their cells to [tablewriter]; what a reporter
    does with it is recorded here, and the rendering itself belongs to
    that library. *)
Inductive Alignment := ALIGN_DEFAULT | ALIGN_CENTER | ALIGN_RIGHT | ALIGN_LEFT.

Record Table := mkTable {
  tbl_header : list string;
  tbl_rows : list (list string);
  tbl_align : Alignment;
  tbl_autoMergeCells : bool;
  tbl_rowLine : bool
}.

Definition NewWriter : Table := mkTable [] [] ALIGN_DEFAULT false false.
Definition SetHeader (h : list string) (t : Table) : Table :=
  mkTable h (tbl_rows t) (tbl_align t) (tbl_autoMergeCells t) (tbl_rowLine t).
Definition Append (row : list string) (t : Table) : Table :=
  mkTable (tbl_header t) (tbl_rows t ++ [row]) (tbl_align t) (tbl_autoMergeCells t)
    (tbl_rowLine t).
Definition SetAlignment (a : Alignment) (t : Table) : Table :=
  mkTable (tbl_header t) (tbl_rows t) a (tbl_autoMergeCells t) (tbl_rowLine t).
Definition SetAutoMergeCells (b : bool) (t : Table) : Table :=
  mkTable (tbl_header t) (tbl_rows t) (tbl_align t) b (tbl_rowLine t).
Definition SetRowLine (b : bool) (t : Table) : Table :=
  mkTable (tbl_header t) (tbl_rows t) (tbl_align t) (tbl_autoMergeCells t) b.

(** ** Reporters *)

(** The catalog of variants behind the [Reporter] interface. *)
Inductive Reporter := ConnectionReporter | HeaderReporter | IpfsGwReporter | SaturnReporter.

#[export] Instance Reporter_eq_dec : EqDecision Reporter.
Proof. solve_decision. Defined.

Definition Title (r : Reporter) : string :=
  match r with
  | ConnectionReporter => "Session Establishment"
  | HeaderReporter => "Request and Response Headers"
  | IpfsGwReporter => "IPFS Gateway Path"
  | SaturnReporter => "Saturn CDN"
  end.

Definition Description (r : Reporter) : string :=
  match r with
  | ConnectionReporter =>
      "Shows the timing for various stages of establishment of a HTTP/HTTPS session"
  | HeaderReporter => "Shows Request and Response headers from a HTTP/HTTPS request"
  | IpfsGwReporter => "Shows Information about the path through the IPFS Gateway"
  | SaturnReporter => "Shows information about Saturn CDN, where applicable"
  end.

(** [reportersList]: the name-to-reporter map literal. *)
Definition reportersList : gmap string Reporter :=
  list_to_map [("Connection", ConnectionReporter); ("Header", HeaderReporter);
               ("IPFSGW", IpfsGwReporter); ("Saturn", SaturnReporter)].

(** Go leaves the order in which [range] visits the keys of a map
    unspecified, and it may change from one loop to the next.  The order
    taken by the two loops of one [HeaderReporter.Report] call is an
    input of the call. *)
Record RangeOrder := mkOrder { req_order : list string; resp_order : list string }.

(** [ks] is an order in which [range h] may visit the keys of [h]:
    every key once. *)
Definition ranges (h : Header) (ks : list string) : Prop := ks ≡ₚ (map_to_list h).*1.

Definition admissible (o : RangeOrder) (s : StatsCollector) : Prop :=
  ranges (RequestHeaders s) (req_order o) ∧ ranges (ResponseHeaders s) (resp_order o).

(** [NsDiffInSeconds]: both arguments are converted to [float64]
    before the subtraction. *)
Definition NsDiffInSeconds (e s : Z) : float64 :=
  f64_div (f64_sub (float64_of_int e) (float64_of_int s)) (float64_of_int 1000000000).

(** The two rows [ConnectionReporter.Report] builds. *)
Definition ConnectionReporter_data (s : StatsCollector) : list string :=
  [ fmt_f (NsDiffInSeconds (Dns.EndTime (Dns s)) (Dns.StartTime (Dns s)));
    fmt_f (NsDiffInSeconds (Connection.EndTime (Connection s))
                           (Connection.StartTime (Connection s)));
    fmt_f (NsDiffInSeconds (Tls.EndTime (Tls s)) (Connection.StartTime (Connection s)));
    fmt_f (NsDiffInSeconds (Request.StartTime (Request s)) (Session.EndTime (Session s)));
    fmt_f (NsDiffInSeconds (FirstByteTime s) (Request.StartTime (Request s))) ].

Definition ConnectionReporter_hints (s : StatsCollector) : list string :=
  [ Dns.Host (Dns s) +:+ nl +:+ fmt_Addrs (Dns.Addrs (Dns s));
    Connection.Address (Connection s);
    "ver: " +:+ fmt_x (Tls.Version (Tls s)) +:+ nl +:+ "name: "
      +:+ Tls.ServerName (Tls s);
    "";
    "" ].

(** The rows one [range] loop of [HeaderReporter.Report] appends when it
    visits the keys in the order [ks]. *)
Definition header_rows (section : string) (h : Header) (ks : list string)
  : list (list string) :=
  k ← ks; v ← elems (hdr h k); [[section; k; v]].

Definition HeaderReporter_table (o : RangeOrder) (s : StatsCollector) : Table :=
  let t := SetHeader [""; "Key"; "Value"] NewWriter in
  let t := foldl (λ t row, Append row t) t
             (header_rows "Request" (RequestHeaders s) (req_order o)) in
  let t := foldl (λ t row, Append row t) t
             (header_rows "Response" (ResponseHeaders s) (resp_order o)) in
  let t := SetAlignment ALIGN_LEFT t in
  let t := SetAutoMergeCells true t in
  SetRowLine true t.

Section Reporters.

(** [Table.Render] of the table-writer library: the text it writes for
    a table. *)
Variable Render : Table → string.

Definition ConnectionReporter_Report (s : StatsCollector) : Outcome (string * error) :=
  let t := SetHeader ["DNS Lookup"; "Connection"; "TLS"; "Request"; "First Byte"]
             NewWriter in
  let data := ConnectionReporter_data s in
  let hints := ConnectionReporter_hints s in
  let t := SetAlignment ALIGN_LEFT t in
  let t := SetAutoMergeCells true t in
  let t := SetRowLine true t in
  let t := Append data t in
  let t := Append hints t in
  Done (Render t, None).

Definition HeaderReporter_Report (o : RangeOrder) (s : StatsCollector)
  : Outcome (string * error) :=
  Done (Render (HeaderReporter_table o s), None).

Definition IpfsGwReporter_Report (s : StatsCollector) : Outcome (string * error) :=
  if is_nil (hdr (ResponseHeaders s) "X-Ipfs-Lb-Pop") then
    Done ("", errors_New "Header X-Ipfs-Lb-Pop is not present in response")
  else if is_nil (hdr (ResponseHeaders s) "X-Ipfs-Pop") then
    Done ("", errors_New "Header X-Ipfs-Pop is not present in response")
  else
    let t := SetHeader ["Client"; "Gateway"; "Load Balancer"; "IPFS Node"] NewWriter in
    local ← call_String (Session.Local (Session s));
    remote ← call_String (Session.Remote (Session s));
    lb ← index0 (hdr (ResponseHeaders s) "X-Ipfs-Lb-Pop");
    pop ← index0 (hdr (ResponseHeaders s) "X-Ipfs-Pop");
    let t := Append [local; remote; lb; pop] t in
    let t := SetAlignment ALIGN_LEFT t in
    let t := SetAutoMergeCells true t in
    let t := SetRowLine true t in
    let tw := Render t in
    tw ← (if negb (is_nil (hdr (ResponseHeaders s) "X-Proxy-Cache")) then
            cache ← index0 (hdr (ResponseHeaders s) "X-Proxy-Cache");
            Done (tw +:+ "The request was an IPFS gateway cache " +:+ cache +:+ nl)
          else Done tw);
    Done (tw, None).

Definition SaturnReporter_Report (s : StatsCollector) : Outcome (string * error) :=
  if is_nil (hdr (ResponseHeaders s) "Saturn-Transfer-Id") then
    Done ("", errors_New "Header Saturn-Transfer-Id not present in response")
  else if is_nil (hdr (ResponseHeaders s) "Saturn-Node-Id") then
    Done ("", errors_New "Header Saturn-Node-Id not present in response")
  else if is_nil (hdr (ResponseHeaders s) "Saturn-Node-Version") then
    Done ("", errors_New "Header Saturn-Node-Version not present in response")
  else if is_nil (hdr (ResponseHeaders s) "Saturn-Cache-Status") then
    Done ("", errors_New "Header Saturn-Cache-Status not present in response")
  else
    let t := SetHeader ["Client"; "Transfer ID"; "Saturn Node"; "Saturn Node ID";
                        "Node Version"; "Cache Status"] NewWriter in
    local ← call_String (Session.Local (Session s));
    transfer ← index0 (hdr (ResponseHeaders s) "Saturn-Transfer-Id");
    remote ← call_String (Session.Remote (Session s));
    node ← index0 (hdr (ResponseHeaders s) "Saturn-Node-Id");
    version ← index0 (hdr (ResponseHeaders s) "Saturn-Node-Version");
    cache ← index0 (hdr (ResponseHeaders s) "Saturn-Cache-Status");
    let t := Append [local; transfer; remote; node; version; cache] t in
    let t := SetAlignment ALIGN_LEFT t in
    let t := SetAutoMergeCells true t in
    let t := SetRowLine true t in
    Done (Render t, None).

(** [r.Report(s)] through the interface.  The collector is passed by
    pointer: the call returns its result together with the collector
    it leaves behind. *)
Definition Report (r : Reporter) (o : RangeOrder) (s : StatsCollector)
  : Outcome (string * error) * StatsCollector :=
  match r with
  | ConnectionReporter => (ConnectionReporter_Report s, s)
  | HeaderReporter => (HeaderReporter_Report o s, s)
  | IpfsGwReporter => (IpfsGwReporter_Report s, s)
  | SaturnReporter => (SaturnReporter_Report s, s)
  end.

(** *** The dispatch loop of [main] *)

(** What the loop writes: lines on standard output and log records. *)
Inductive Output := Stdout (text : string) | Log (text : string).

(** One turn of the loop for the requested name [rep]: what it writes,
    or the panic a reporter raises. *)
Definition run_reporter (o : RangeOrder) (rep : string) (s : StatsCollector)
  : Outcome (list Output) * StatsCollector :=
  match reportersList !! rep with
  | Some r =>
      match Report r o s with
      | (Done (cr, None), s) =>
          (Done [ Stdout (rep +:+ ": " +:+ Title r +:+ nl);
                  Stdout (Description r +:+ nl);
                  Stdout (cr +:+ nl);
                  Stdout ("" +:+ nl) ], s)
      | (Done (_, Some err), s) =>
          (Done [ Stdout ("Reporter " +:+ rep +:+ " failed: " +:+ err +:+ nl) ], s)
      | (Panicked msg, s) => (Panicked msg, s)
      end
  | None => (Done [ Log ("Unknown reporter '" +:+ rep +:+ "'") ], s)
  end.

(** [for _, rep := range reqReporters]: the output written so far, and
    the panic that ended the run, if any.  [ords i] is the order the
    [range] loops take in the [i]-th turn. *)
Fixpoint run_reporters (ords : nat → RangeOrder) (i : nat) (reqReporters : list string)
    (s : StatsCollector) : list Output * option string * StatsCollector :=
  match reqReporters with
  | [] => ([], None, s)
  | rep :: rest =>
      match run_reporter (ords i) rep s with
      | (Done out, s) =>
          let '(outs, p, s) := run_reporters ords (S i) rest s in
          (out ++ outs, p, s)
      | (Panicked msg, s) => ([], Some msg, s)
      end
  end.

(** What each requested name writes (or the panic it raises) when its
    turn is run on [s] by itself. *)
Fixpoint turns (ords : nat → RangeOrder) (i : nat) (reqReporters : list string)
    (s : StatsCollector) : list (Outcome (list Output)) :=
  match reqReporters with
  | [] => []
  | rep :: rest => (run_reporter (ords i) rep s).1 :: turns ords (S i) rest s
  end.

End Reporters.

(** ** Vocabulary of the properties *)

(** [needle] occurs in [hay]. *)
Definition contains (hay needle : string) : Prop :=
  ∃ pre post, hay = pre +:+ needle +:+ post.

(** Every (section, key, value) triple of a header map, one row per
    value; this is the enumeration the specification describes, taken
    over the entries of the map rather than over a [range] order. *)
Definition header_triples (section : string) (h : Header) : list (list string) :=
  kv ← map_to_list h; v ← elems kv.2; [[section; kv.1; v]].

(** The table a successful [IpfsGwReporter.Report] renders, and the line
    it writes after it. *)
Definition IpfsGw_table (local remote lb pop : string) : Table :=
  mkTable ["Client"; "Gateway"; "Load Balancer"; "IPFS Node"] [[local; remote; lb; pop]]
    ALIGN_LEFT true true.
Definition IpfsGw_cache_line (cache : string) : string :=
  "The request was an IPFS gateway cache " +:+ cache +:+ nl.

(** The table a successful [SaturnReporter.Report] renders. *)
Definition Saturn_table (local transfer remote node version cache : string) : Table :=
  mkTable ["Client"; "Transfer ID"; "Saturn Node"; "Saturn Node ID"; "Node Version";
           "Cache Status"]
    [[local; transfer; remote; node; version; cache]] ALIGN_LEFT true true.

(** The table [ConnectionReporter.Report] renders. *)
Definition Connection_table (s : StatsCollector) : Table :=
  mkTable ["DNS Lookup"; "Connection"; "TLS"; "Request"; "First Byte"]
    [ConnectionReporter_data s; ConnectionReporter_hints s] ALIGN_LEFT true true.

(** The four required headers, in the order the code checks them. *)
Definition Saturn_required : list string :=
  ["Saturn-Transfer-Id"; "Saturn-Node-Id"; "Saturn-Node-Version"; "Saturn-Cache-Status"].

(** The first header of [ks] that reads nil in [h], if any. *)
Fixpoint first_missing (h : Header) (ks : list string) : option string :=
  match ks with
  | [] => None
  | k :: ks => if is_nil (hdr h k) then Some k else first_missing h ks
  end.

(** ** Concrete snapshots *)

(** A renderer to run the reporters with: cells joined by [|], one row
    per line. *)
Definition plain_render (t : Table) : string :=
  String.concat nl (String.concat "|" <$> (tbl_header t :: tbl_rows t)).

(** Three bytes, ten bytes, ... *)
Definition bytes (n : nat) : list Byte.byte := replicate n Byte.x00.

(** A session over TLS, recorded by the hooks in protocol order: DNS
    from 1,000 ns to 0.5 s, TCP connect from 1 s to 1.5 s, TLS handshake
    from 2 s to 3 s. *)
Definition tls_session : StatsCollector :=
  EndTls 3000000000 772 4865 "strn.pl"
    (StartTls 2000000000
       (EndConnect 1500000000 "tcp" "103.93.130.94:443" None
          (StartConnect 1000000000 "tcp" "103.93.130.94:443"
             (EndDns 500000000 (Some [Build_IPAddr "103.93.130.94" ""])
                (StartDns 1000 "strn.pl" zero_collector))))).

Definition client_addr : Addr := Build_Addr "tcp" "192.168.0.6:56985".
Definition gateway_addr : Addr := Build_Addr "tcp" "209.94.90.1:443".

Definition ipfs_headers : Header :=
  {[ "X-Ipfs-Lb-Pop" := Some ["gateway-bank1-sg1"];
     "X-Ipfs-Pop" := Some ["ipfs-bank5-sg1"];
     "X-Proxy-Cache" := Some ["HIT"] ]}.

Definition saturn_headers : Header :=
  {[ "Saturn-Transfer-Id" := Some ["t1"];
     "Saturn-Node-Id" := Some ["n1"];
     "Saturn-Node-Version" := Some ["v1"];
     "Saturn-Cache-Status" := Some ["HIT"] ]}.

(** Response headers recorded, the session hook ([GotSession]) never
    fired: [Session.Local] and [Session.Remote] are nil. *)
Definition ipfs_no_session : StatsCollector := SetResponseHeaders ipfs_headers zero_collector.
Definition saturn_no_session : StatsCollector :=
  SetResponseHeaders saturn_headers zero_collector.

(** The same with the session hook fired. *)
Definition ipfs_session : StatsCollector :=
  SetResponseHeaders ipfs_headers
    (GotSession 900000000 (Some client_addr) (Some gateway_addr) zero_collector).
Definition saturn_session : StatsCollector :=
  SetResponseHeaders saturn_headers
    (GotSession 900000000 (Some client_addr) (Some gateway_addr) zero_collector).

(** The session hook fired, and [X-Ipfs-Lb-Pop] is mapped to an empty,
    non-nil slice. *)
Definition ipfs_empty_value : StatsCollector :=
  SetResponseHeaders {[ "X-Ipfs-Lb-Pop" := Some []; "X-Ipfs-Pop" := Some ["ipfs-bank5-sg1"] ]}
    (GotSession 900000000 (Some client_addr) (Some gateway_addr) zero_collector).

(** Two request headers. *)
Definition two_headers : StatsCollector :=
  SetRequestHeaders {[ "A" := Some ["1"]; "B" := Some ["2"] ]} zero_collector.

(** One request header with two values, no response header. *)
Definition multi_valued : StatsCollector :=
  SetRequestHeaders {[ "A" := Some ["1"; "2"] ]} zero_collector.

(** The first byte arrived in second 10 and five bytes were written in
    that second: the recorded second is 10 and the accumulator holds 5. *)
Definition mid_second : StatsCollector :=
  (Write 10500000000 (bytes 5) (FirstByteReceived 10200000000 zero_collector)).2.

(** ** The rest of the program *)

(** *** The body copy

    [io.Copy(out, io.TeeReader(resp.Body, httpStats))] hands the body to
    the sink chunk by chunk; each call reads the clock on its own. *)
Definition writes (ws : list (Time * list Byte.byte)) (c : StatsCollector) : StatsCollector :=
  foldl (λ c w, (Write w.1 w.2 c).2) c ws.

(** The bytes of a sequence of chunks, and the sum of a series. *)
Definition total_len (ws : list (Time * list Byte.byte)) : Z :=
  foldr (λ w acc, Z.of_nat (length w.2) + acc) 0 ws.
Definition sum_Z (l : list Z) : Z := foldr Z.add 0 l.

(** The running total, the series and the accumulator account for the
    same bytes (in [uint64] arithmetic). *)
Definition conserved (c : StatsCollector) : Prop :=
  TotalBytes c mod 2 ^ 64 = (sum_Z (elems (PerSecond c)) + CurrentSecBytes c) mod 2 ^ 64.

(** The account in plain integers, as long as nothing wraps. *)
Definition exact_account (c : StatsCollector) (n : Z) : Prop :=
  TotalBytes c = n ∧
  sum_Z (elems (PerSecond c)) + CurrentSecBytes c = n ∧
  0 ≤ CurrentSecBytes c ∧ 0 ≤ sum_Z (elems (PerSecond c)).

(** *** The trace hooks

    The events of [httptrace.ClientTrace] that [main] binds, each with
    the information the transport hands to the hook: [DNSDone] gets a
    [DNSDoneInfo] (addresses, error, coalesced), [TLSHandshakeDone] the
    connection state (of which the version, the cipher suite and the
    server name are read) and an error, [GotConn] a connection whose
    local and remote addresses are read. *)
Module Trace.
Inductive Event :=
  | DNSStart (host : string)
  | DNSDone (addrs : Slice IPAddr) (err : error) (coalesced : bool)
  | TLSHandshakeStart
  | TLSHandshakeDone (version cipherSuite : Z) (serverName : string) (err : error)
  | ConnectStart (network addr : string)
  | ConnectDone (network addr : string) (err : error)
  | GetConn (hostPort : string)
  | GotConn (local remote : option Addr)
  | WroteRequest (err : error)
  | GotFirstResponseByte.
End Trace.

(** The closures of [main]: what each event does to [httpStats]. *)
Definition on_event (now : Time) (ev : Trace.Event) (c : StatsCollector) : StatsCollector :=
  match ev with
  | Trace.DNSStart host => StartDns now host c
  | Trace.DNSDone addrs _ _ => EndDns now addrs c
  | Trace.TLSHandshakeStart => StartTls now c
  | Trace.TLSHandshakeDone version cipherSuite serverName _ =>
      EndTls now version cipherSuite serverName c
  | Trace.ConnectStart network addr => StartConnect now network addr c
  | Trace.ConnectDone network addr err => EndConnect now network addr err c
  | Trace.GetConn hostPort => StartSession now hostPort c
  | Trace.GotConn local remote => GotSession now local remote c
  | Trace.WroteRequest err => WroteRequest now err c
  | Trace.GotFirstResponseByte => FirstByteReceived now c
  end.

(** The events as the transport fires them, each with the clock reading
    of its hook. *)
Fixpoint fire (tr : list (Time * Trace.Event)) (c : StatsCollector) : StatsCollector :=
  match tr with
  | [] => c
  | (now, ev) :: tr => fire tr (on_event now ev c)
  end.

(** The calls [main] makes on [httpStats], in its order: the request
    headers, the trace events of the exchange, the response headers,
    [Start], the body chunks, [Stop]. *)
Definition transfer (reqh : Header) (tr : list (Time * Trace.Event)) (resph : Header)
    (t_start : Time) (ws : list (Time * list Byte.byte)) (t_stop : Time) : StatsCollector :=
  Stop t_stop
    (writes ws
       (Start t_start
          (SetResponseHeaders resph (fire tr (SetRequestHeaders reqh zero_collector))))).

(** The phase record an event writes to. *)
Inductive Phase := PDns | PTls | PConnection | PSession | PRequest | PFirstByte.

#[export] Instance Phase_eq_dec : EqDecision Phase.
Proof. solve_decision. Defined.

Definition phase_of (ev : Trace.Event) : Phase :=
  match ev with
  | Trace.DNSStart _ | Trace.DNSDone _ _ _ => PDns
  | Trace.TLSHandshakeStart | Trace.TLSHandshakeDone _ _ _ _ => PTls
  | Trace.ConnectStart _ _ | Trace.ConnectDone _ _ _ => PConnection
  | Trace.GetConn _ | Trace.GotConn _ _ => PSession
  | Trace.WroteRequest _ => PRequest
  | Trace.GotFirstResponseByte => PFirstByte
  end.

(** What one phase keeps of a run: its own record (for the first byte,
    its time and the second it records for the byte sink). *)
Inductive View :=
  | VDns (d : Dns.t)
  | VTls (t : Tls.t)
  | VConnection (c : Connection.t)
  | VSession (s : Session.t)
  | VRequest (r : Request.t)
  | VFirstByte (time second : Z).

Definition view (ph : Phase) (c : StatsCollector) : View :=
  match ph with
  | PDns => VDns (Dns c)
  | PTls => VTls (Tls c)
  | PConnection => VConnection (Connection c)
  | PSession => VSession (Session c)
  | PRequest => VRequest (Request c)
  | PFirstByte => VFirstByte (FirstByteTime c) (CurrentSecond c)
  end.

(** The events of one phase in a trace. *)
Definition of_phase (ph : Phase) (tr : list (Time * Trace.Event))
  : list (Time * Trace.Event) :=
  filter (λ te, phase_of te.2 = ph) tr.

(** An event with the arguments its closure does not pass on set to
    their zero values. *)
Definition passed_on (ev : Trace.Event) : Trace.Event :=
  match ev with
  | Trace.DNSDone addrs _ _ => Trace.DNSDone addrs None false
  | Trace.TLSHandshakeDone version cipherSuite serverName _ =>
      Trace.TLSHandshakeDone version cipherSuite serverName None
  | ev => ev
  end.

Definition is_ConnectStart (ev : Trace.Event) : bool :=
  match ev with
  | Trace.ConnectStart _ _ => true
  | _ => false
  end.

Definition is_ConnectDone (ev : Trace.Event) : bool :=
  match ev with
  | Trace.ConnectDone _ _ _ => true
  | _ => false
  end.

Definition is_GotConn (ev : Trace.Event) : bool :=
  match ev with
  | Trace.GotConn _ _ => true
  | _ => false
  end.

(** No header of [h] is mapped to an empty, non-nil slice (the transport
    stores a header with its first value). *)
Definition no_empty_value (h : Header) : Prop := ∀ k, h !! k ≠ Some (Some []).

(** A reading of the clock that fits [int64] nanoseconds. *)
Definition in_int64 (z : Z) : Prop := - 2 ^ 63 ≤ z < 2 ^ 63.

(** *** The [-reporters] flag *)

(** [strings.Split(s, sep)] for a separator of one byte: the segments
    between the separators, in order; a string without separator is its
    only segment. *)
Fixpoint Split (s : string) (sep : ascii) : list string :=
  match s with
  | EmptyString => [EmptyString]
  | String c rest =>
      if decide (c = sep) then EmptyString :: Split rest sep
      else match Split rest sep with
           | seg :: segs => String c seg :: segs
           | [] => [String c EmptyString]
           end
  end.

Definition comma : ascii := ascii_of_nat 44.

(** [strings.Join(names, ",")]. *)
Definition Join (names : list string) : string := String.concat (String comma EmptyString) names.

(** [c] occurs in [s]. *)
Fixpoint has_byte (c : ascii) (s : string) : bool :=
  match s with
  | EmptyString => false
  | String x rest => if decide (x = c) then true else has_byte c rest
  end.

(** [sort.Strings]: ascending in the byte-wise order of Go strings.
    That order is total and antisymmetric, so the sorted slice is the
    same for every sorting algorithm. *)
Definition sort_Strings (l : list string) : list string := merge_sort String.le l.

(** [-reporters list]: [ks] is the order in which [range reportersList]
    visits the names. *)
Definition list_reporters (ks : list string) : list Output :=
  Stdout ("List of reporters:" +:+ nl) ::
  ((λ k, Stdout ("    " +:+ k +:+ nl)) <$> sort_Strings ks).

(** The end of [main], after the transfer: nothing more with an empty
    [-reporters] flag ([os.Exit(0)], [None]); otherwise an empty line
    and the dispatch loop over the comma-separated names. *)
Definition report_phase (Render : Table → string) (ords : nat → RangeOrder)
    (reporters : string) (s : StatsCollector)
  : option (list Output * option string * StatsCollector) :=
  if decide (reporters = EmptyString) then None
  else
    let '(outs, p, s) := run_reporters Render ords 0 (Split reporters comma) s in
    Some (Stdout nl :: outs, p, s).



(** The key and the section of a row of the header table. *)
Definition row_of (section k : string) (row : list string) : bool :=
  match row with
  | [sec; key; _] => bool_decide (sec = section ∧ key = k)
  | _ => false
  end.

(** * Properties *)

(** ** The byte sink *)

Lemma wrap_u64_small (z : Z) : 0 ≤ z < 2 ^ 64 → wrap_u64 z = z.
Proof. intros ?. unfold wrap_u64. by apply Z.mod_small. Qed.

Lemma Write_returns (now : Time) (p : list Byte.byte) (c : StatsCollector) :
  (Write now p c).1 = (Z.of_nat (length p), None).
Proof. reflexivity. Qed.

Lemma Write_later_second (now : Time) (p : list Byte.byte) (c : StatsCollector) :
  CurrentSecond c < Unix now →
  PerSecond (Write now p c).2 = append (PerSecond c) (CurrentSecBytes c) ∧
  CurrentSecBytes (Write now p c).2 = wrap_u64 (0 + Z.of_nat (length p)) ∧
  CurrentSecond (Write now p c).2 = Unix now.
Proof.
  intros Hlt. unfold Write.
  destruct (Unix now >? CurrentSecond (set_TotalBytes _ c)) eqn:E; simpl in *; [done|].
  rewrite Z.gtb_ltb in E. apply Z.ltb_ge in E. lia.
Qed.

Lemma Write_same_second (now : Time) (p : list Byte.byte) (c : StatsCollector) :
  Unix now ≤ CurrentSecond c →
  PerSecond (Write now p c).2 = PerSecond c ∧
  CurrentSecBytes (Write now p c).2 = wrap_u64 (CurrentSecBytes c + Z.of_nat (length p)) ∧
  CurrentSecond (Write now p c).2 = CurrentSecond c.
Proof.
  intros Hle. unfold Write.
  destruct (Unix now >? CurrentSecond (set_TotalBytes _ c)) eqn:E; simpl in *; [|done].
  rewrite Z.gtb_ltb in E. apply Z.ltb_lt in E. lia.
Qed.

(** C2, as the claim states it, fails when the wall clock steps back:
    the recorded second is 10, five bytes are accumulated, and three
    bytes are written at second 9.  The second differs, yet nothing is
    appended to the series and the accumulator goes to 8; the claim has
    the 5 appended and the accumulator restarted at 3. *)
Lemma Write_earlier_second_counterexample :
  let c' := (Write 9000000000 (bytes 3) mid_second).2 in
  CurrentSecond mid_second = 10 ∧ CurrentSecBytes mid_second = 5 ∧
  Unix 9000000000 = 9 ∧
  Unix 9000000000 ≠ CurrentSecond mid_second ∧
  PerSecond c' = PerSecond mid_second ∧
  CurrentSecBytes c' = 8 ∧
  ¬ (PerSecond c' = append (PerSecond mid_second) (CurrentSecBytes mid_second) ∧
     CurrentSecBytes c' = 3).
Proof.
  vm_compute. split_and!; try done. intros [? ?]. discriminate.
Qed.

(** C2, amended: a write of a chunk of N bytes returns [(N, nil)] and
    adds N to the running total (in [uint64] arithmetic).  If the
    current wall-clock second is strictly later than the recorded one,
    the accumulated count is appended to the per-second series, the
    accumulator restarts from 0 plus N and the second is recorded;
    otherwise (same second, or an earlier one) nothing is appended and N
    is added to the accumulator.  Writes of 10, 20 and 30 bytes within
    the recorded second, from an accumulator of 0, leave the series as
    it was and the accumulator at 60. *)
Theorem Write_accounting (now : Time) (p : list Byte.byte) (c : StatsCollector) :
  let n := Z.of_nat (length p) in
  let c' := (Write now p c).2 in
  (Write now p c).1 = (n, None) ∧
  TotalBytes c' = wrap_u64 (TotalBytes c + n) ∧
  (CurrentSecond c < Unix now →
     PerSecond c' = append (PerSecond c) (CurrentSecBytes c) ∧
     CurrentSecBytes c' = wrap_u64 (0 + n) ∧
     CurrentSecond c' = Unix now) ∧
  (Unix now ≤ CurrentSecond c →
     PerSecond c' = PerSecond c ∧
     CurrentSecBytes c' = wrap_u64 (CurrentSecBytes c + n) ∧
     CurrentSecond c' = CurrentSecond c) ∧
  (Unix now ≤ CurrentSecond c → CurrentSecBytes c = 0 →
     let c3 := (Write now (bytes 30) (Write now (bytes 20) (Write now (bytes 10) c).2).2).2 in
     CurrentSecBytes c3 = 60 ∧ PerSecond c3 = PerSecond c).
Proof.
  intros n c'. split_and!.
  - reflexivity.
  - subst c'. unfold Write.
    by destruct (Unix now >? CurrentSecond (set_TotalBytes _ c)).
  - apply Write_later_second.
  - apply Write_same_second.
  - intros Hle Hz c3. subst c3.
    destruct (Write_same_second now (bytes 10) c Hle) as (P1 & B1 & S1).
    assert (Hle1 : Unix now ≤ CurrentSecond (Write now (bytes 10) c).2) by lia.
    destruct (Write_same_second now (bytes 20) _ Hle1) as (P2 & B2 & S2).
    assert (Hle2 : Unix now ≤ CurrentSecond (Write now (bytes 20) (Write now (bytes 10) c).2).2)
      by lia.
    destruct (Write_same_second now (bytes 30) _ Hle2) as (P3 & B3 & S3).
    rewrite B3, B2, B1, P3, P2, P1, Hz. split; [|done].
    by vm_compute.
Qed.

(** [Write_accounting] at work: the first byte arrives in second 7, and
    chunks of 10, 20 and 30 bytes are written within that second; the
    next chunk, of 4 bytes, is written in second 8. *)
Lemma Write_accounting_witness :
  let c := FirstByteReceived 7200000000 zero_collector in
  let c3 := (Write 7900000000 (bytes 30)
               (Write 7900000000 (bytes 20) (Write 7900000000 (bytes 10) c).2).2).2 in
  (CurrentSecBytes c3 = 60 ∧ PerSecond c3 = PerSecond c) ∧
  (PerSecond (Write 8100000000 (bytes 4) c3).2 = append (PerSecond c3) (CurrentSecBytes c3) ∧
   CurrentSecBytes (Write 8100000000 (bytes 4) c3).2 = wrap_u64 (0 + 4) ∧
   CurrentSecond (Write 8100000000 (bytes 4) c3).2 = 8).
Proof.
  split.
  - apply (Write_accounting 7900000000 [] (FirstByteReceived 7200000000 zero_collector));
      vm_compute; [discriminate | reflexivity].
  - apply (Write_accounting 8100000000 (bytes 4)). vm_compute. reflexivity.
Defined.

(** The mutators are total functions of the collector: none of them can
    fail.  What [FirstByteReceived] leaves behind is what the byte sink
    compares the clock with. *)
Lemma FirstByteReceived_second (now : Time) (c : StatsCollector) :
  CurrentSecond (FirstByteReceived now c) = Unix now ∧
  CurrentSecBytes (FirstByteReceived now c) = CurrentSecBytes c ∧
  PerSecond (FirstByteReceived now c) = PerSecond c.
Proof. done. Qed.

(** ** ConnectionReport *)

Lemma ConnectionReporter_Report_table (Render : Table → string) (s : StatsCollector) :
  ConnectionReporter_Report Render s = Done (Render (Connection_table s), None).
Proof. reflexivity. Qed.

(** The five cells of the data row, as the code computes them. *)
Lemma ConnectionReporter_data_cells (s : StatsCollector) :
  ConnectionReporter_data s =
  [ fmt_f (NsDiffInSeconds (Dns.EndTime (Dns s)) (Dns.StartTime (Dns s)));
    fmt_f (NsDiffInSeconds (Connection.EndTime (Connection s))
                           (Connection.StartTime (Connection s)));
    fmt_f (NsDiffInSeconds (Tls.EndTime (Tls s)) (Connection.StartTime (Connection s)));
    fmt_f (NsDiffInSeconds (Request.StartTime (Request s)) (Session.EndTime (Session s)));
    fmt_f (NsDiffInSeconds (FirstByteTime s) (Request.StartTime (Request s))) ].
Proof. reflexivity. Qed.

(** The example of the specification: 1,000 ns to 500,000,000 ns is
    0.499999 s. *)
Lemma NsDiffInSeconds_example : fmt_f (NsDiffInSeconds 500000000 1000) = "0.499999".
Proof. by vm_compute. Qed.

(** C1: the TLS column is not computed from the TLS pair.  On
    [tls_session] the TLS handshake runs from 2 s to 3 s and the TCP
    connect starts at 1 s: the code reports 2.000000 (end of TLS minus
    start of connect) where the TLS pair gives 1.000000.  The DNS and
    TCP columns are the durations of their own pairs. *)
Theorem ConnectionReporter_TLS_column :
  Tls.StartTime (Tls tls_session) = 2000000000 ∧
  Tls.EndTime (Tls tls_session) = 3000000000 ∧
  Connection.StartTime (Connection tls_session) = 1000000000 ∧
  ConnectionReporter_data tls_session =
    ["0.499999"; "0.500000"; "2.000000"; "0.000000"; "0.000000"] ∧
  fmt_f (NsDiffInSeconds (Tls.EndTime (Tls tls_session)) (Tls.StartTime (Tls tls_session)))
    = "1.000000" ∧
  ConnectionReporter_data tls_session !! 2%nat ≠
    Some (fmt_f (NsDiffInSeconds (Tls.EndTime (Tls tls_session))
                                 (Tls.StartTime (Tls tls_session)))).
Proof. vm_compute. split_and!; done. Qed.

(** C8: [ConnectionReporter.Report] returns a nil error on every
    snapshot; the body is the rendering of a table whose rows are
    computed from whatever the fields hold.  On the zero collector (no
    phase ran) every duration reads 0.000000. *)
Theorem ConnectionReporter_Report_succeeds (Render : Table → string) (o : RangeOrder)
    (s : StatsCollector) :
  ConnectionReporter_Report Render s = Done (Render (Connection_table s), None) ∧
  (Report Render ConnectionReporter o s).1 = Done (Render (Connection_table s), None) ∧
  (∀ body e, ConnectionReporter_Report Render s = Done (body, e) → e = None) ∧
  (∀ msg, ConnectionReporter_Report Render s ≠ Panicked msg) ∧
  ConnectionReporter_data zero_collector =
    ["0.000000"; "0.000000"; "0.000000"; "0.000000"; "0.000000"].
Proof.
  split_and!.
  - reflexivity.
  - reflexivity.
  - intros body e H. rewrite ConnectionReporter_Report_table in H. congruence.
  - intros msg H. rewrite ConnectionReporter_Report_table in H. discriminate.
  - by vm_compute.
Qed.

(** ** Strings *)

Lemma append_assoc (a b c : string) : (a +:+ b) +:+ c = a +:+ b +:+ c.
Proof.
  induction a as [|x a IH]; [done|].
  change (String x ((a +:+ b) +:+ c) = String x (a +:+ b +:+ c)). by rewrite IH.
Qed.

Lemma contains_suffix (pre needle post : string) :
  contains (pre +:+ needle +:+ post) needle.
Proof. by exists pre, post. Qed.

(** ** IPFSGatewayReport *)

Lemma is_nil_true {A} (sl : Slice A) : is_nil sl = true ↔ sl = None.
Proof. destruct sl; simpl; split; congruence. Qed.

Lemma IpfsGwReporter_missing_lb (Render : Table → string) (s : StatsCollector) :
  hdr (ResponseHeaders s) "X-Ipfs-Lb-Pop" = None →
  IpfsGwReporter_Report Render s =
    Done ("", errors_New "Header X-Ipfs-Lb-Pop is not present in response").
Proof. intros H. unfold IpfsGwReporter_Report. by rewrite H. Qed.

Lemma IpfsGwReporter_missing_pop (Render : Table → string) (s : StatsCollector) :
  hdr (ResponseHeaders s) "X-Ipfs-Lb-Pop" ≠ None →
  hdr (ResponseHeaders s) "X-Ipfs-Pop" = None →
  IpfsGwReporter_Report Render s =
    Done ("", errors_New "Header X-Ipfs-Pop is not present in response").
Proof.
  intros H1 H2. unfold IpfsGwReporter_Report. rewrite H2.
  by destruct (hdr (ResponseHeaders s) "X-Ipfs-Lb-Pop").
Qed.

(** Past the two checks the report returns no error: it either renders
    or panics. *)
Lemma IpfsGwReporter_no_error_past_checks (Render : Table → string) (s : StatsCollector)
    (body : string) (e : error) :
  hdr (ResponseHeaders s) "X-Ipfs-Lb-Pop" ≠ None →
  hdr (ResponseHeaders s) "X-Ipfs-Pop" ≠ None →
  IpfsGwReporter_Report Render s = Done (body, e) → e = None.
Proof.
  intros H1 H2. unfold IpfsGwReporter_Report.
  destruct (hdr (ResponseHeaders s) "X-Ipfs-Lb-Pop") as [[|lb lbs]|]; [| |done];
  destruct (hdr (ResponseHeaders s) "X-Ipfs-Pop") as [[|pop pops]|]; try done;
  destruct (Session.Local (Session s)), (Session.Remote (Session s)); simpl; try done;
  destruct (hdr (ResponseHeaders s) "X-Proxy-Cache") as [[|c cs]|]; simpl; congruence.
Qed.

(** X1: [IpfsGwReporter.Report] returns an error exactly when one of the two
    required headers reads nil, and the error names the first one
    missing of [X-Ipfs-Lb-Pop], [X-Ipfs-Pop]. *)
Theorem IpfsGwReporter_error_iff (Render : Table → string) (s : StatsCollector) :
  ((∃ body msg, IpfsGwReporter_Report Render s = Done (body, Some msg)) ↔
   hdr (ResponseHeaders s) "X-Ipfs-Lb-Pop" = None ∨
   hdr (ResponseHeaders s) "X-Ipfs-Pop" = None) ∧
  (∀ body msg, IpfsGwReporter_Report Render s = Done (body, Some msg) →
     body = "" ∧
     msg = if is_nil (hdr (ResponseHeaders s) "X-Ipfs-Lb-Pop")
           then "Header X-Ipfs-Lb-Pop is not present in response"
           else "Header X-Ipfs-Pop is not present in response").
Proof.
  destruct (hdr (ResponseHeaders s) "X-Ipfs-Lb-Pop") as [lb|] eqn:Hlb.
  - destruct (hdr (ResponseHeaders s) "X-Ipfs-Pop") as [pop|] eqn:Hpop.
    + assert (Hno : ∀ body msg, IpfsGwReporter_Report Render s ≠ Done (body, Some msg)).
      { intros body msg H.
        apply IpfsGwReporter_no_error_past_checks in H; [done | by rewrite Hlb | by rewrite Hpop]. }
      split.
      * split; [intros (body & msg & H); by apply Hno in H | intros [?|?]; done].
      * intros body msg H. by apply Hno in H.
    + rewrite (IpfsGwReporter_missing_pop Render s) by (by rewrite ?Hlb).
      split; [split; eauto | intros ?? [= <- <-]; done].
  - rewrite (IpfsGwReporter_missing_lb Render s Hlb).
    split; [split; eauto | intros ?? [= <- <-]; done].
Qed.



(** C4: with both required headers and [X-Proxy-Cache: HIT] in the
    response, but the session hook never fired, [IpfsGwReporter.Report]
    neither fails with an error nor succeeds: [s.Session.Local.String()]
    is a method call on a nil interface value, and the call panics. *)
Theorem IpfsGwReporter_Report_panics_without_session :
  hdr (ResponseHeaders ipfs_no_session) "X-Ipfs-Lb-Pop" = Some ["gateway-bank1-sg1"] ∧
  hdr (ResponseHeaders ipfs_no_session) "X-Ipfs-Pop" = Some ["ipfs-bank5-sg1"] ∧
  hdr (ResponseHeaders ipfs_no_session) "X-Proxy-Cache" = Some ["HIT"] ∧
  Session.Local (Session ipfs_no_session) = None ∧
  (∀ Render, IpfsGwReporter_Report Render ipfs_no_session = Panicked nil_dereference) ∧
  (∀ Render body e, IpfsGwReporter_Report Render ipfs_no_session ≠ Done (body, e)).
Proof.
  split_and!; try by vm_compute.
Qed.

(** ** SaturnCDNReport *)

Lemma first_missing_None (h : Header) (ks : list string) :
  first_missing h ks = None ↔ Forall (λ k, hdr h k ≠ None) ks.
Proof.
  induction ks as [|k ks IH]; simpl.
  - split; [constructor | done].
  - destruct (hdr h k) eqn:E; simpl.
    + rewrite IH. split; [intros ?; constructor; [by rewrite E | done] | by inversion 1].
    + split; [done | inversion 1; simplify_eq].
Qed.

Lemma SaturnReporter_missing (Render : Table → string) (s : StatsCollector) (k : string) :
  first_missing (ResponseHeaders s) Saturn_required = Some k →
  SaturnReporter_Report Render s =
    Done ("", errors_New ("Header " +:+ k +:+ " not present in response")).
Proof.
  unfold SaturnReporter_Report, Saturn_required. simpl.
  repeat (match goal with
          | |- context [is_nil ?x] => destruct (is_nil x)
          end; [by intros [= <-] |]).
  done.
Qed.

Lemma SaturnReporter_no_error_past_checks (Render : Table → string) (s : StatsCollector)
    (body : string) (e : error) :
  first_missing (ResponseHeaders s) Saturn_required = None →
  SaturnReporter_Report Render s = Done (body, e) → e = None.
Proof.
  unfold SaturnReporter_Report, Saturn_required. simpl.
  repeat (match goal with
          | |- context [is_nil ?x] => destruct x as [[|??]|]; simpl; try done
          end);
  intros _; destruct (Session.Local (Session s)), (Session.Remote (Session s));
  simpl; congruence.
Qed.

(** X3: [SaturnReporter.Report] returns an error exactly when one of the
    four required headers reads nil, and the error names the first one
    missing in the order [Saturn-Transfer-Id], [Saturn-Node-Id],
    [Saturn-Node-Version], [Saturn-Cache-Status]. *)
Theorem SaturnReporter_error_iff (Render : Table → string) (s : StatsCollector) :
  ((∃ body msg, SaturnReporter_Report Render s = Done (body, Some msg)) ↔
   ∃ k, k ∈ Saturn_required ∧ hdr (ResponseHeaders s) k = None) ∧
  (∀ body msg, SaturnReporter_Report Render s = Done (body, Some msg) →
     ∃ k, first_missing (ResponseHeaders s) Saturn_required = Some k ∧
          body = "" ∧ msg = "Header " +:+ k +:+ " not present in response").
Proof.
  destruct (first_missing (ResponseHeaders s) Saturn_required) as [k|] eqn:E.
  - rewrite (SaturnReporter_missing Render s k E). split.
    + split; [intros _ | eauto].
      assert (Hn : ¬ Forall (λ k, hdr (ResponseHeaders s) k ≠ None) Saturn_required).
      { rewrite <- first_missing_None. congruence. }
      apply not_Forall_Exists in Hn; [|intros ?; apply _].
      apply Exists_exists in Hn as (k' & Hin & Hk').
      exists k'. split; [done|]. simpl in Hk'.
      destruct (hdr (ResponseHeaders s) k'); [by destruct Hk' | done].
    + intros ?? [= <- <-]. eauto.
  - assert (Hno : ∀ body msg, SaturnReporter_Report Render s ≠ Done (body, Some msg)).
    { intros body msg H. apply SaturnReporter_no_error_past_checks in H; [done | exact E]. }
    split.
    + split; [intros (body & msg & H); by apply Hno in H |].
      intros (k & Hin & Hk). apply first_missing_None in E.
      rewrite Forall_forall in E. by apply E in Hin.
    + intros body msg H. by apply Hno in H.
Qed.

(** X4: with the session addresses set and a first value under each of the
    four required headers, the report succeeds and its body is the
    rendering of a table of one row: client, transfer id, node address,
    node id, node version, cache status. *)
Theorem SaturnReporter_Report_with_session (Render : Table → string) (s : StatsCollector)
    (l r : Addr) (transfer node version cache : string) (ts ns vs cs : list string) :
  Session.Local (Session s) = Some l →
  Session.Remote (Session s) = Some r →
  hdr (ResponseHeaders s) "Saturn-Transfer-Id" = Some (transfer :: ts) →
  hdr (ResponseHeaders s) "Saturn-Node-Id" = Some (node :: ns) →
  hdr (ResponseHeaders s) "Saturn-Node-Version" = Some (version :: vs) →
  hdr (ResponseHeaders s) "Saturn-Cache-Status" = Some (cache :: cs) →
  SaturnReporter_Report Render s =
    Done (Render (Saturn_table (Addr_String l) transfer (Addr_String r) node version cache),
          None).
Proof.
  intros Hl Hr Ht Hn Hv Hc. unfold SaturnReporter_Report.
  by rewrite Ht, Hn, Hv, Hc, Hl, Hr.
Qed.

Lemma SaturnReporter_Report_with_session_witness :
  SaturnReporter_Report plain_render saturn_session =
    Done (plain_render
            (Saturn_table "192.168.0.6:56985" "t1" "209.94.90.1:443" "n1" "v1" "HIT"), None).
Proof.
  exact (SaturnReporter_Report_with_session plain_render saturn_session client_addr
           gateway_addr "t1" "n1" "v1" "HIT" [] [] [] [] eq_refl eq_refl eq_refl eq_refl
           eq_refl eq_refl).
Defined.

(** C5: with the four required headers in the response
    (Transfer-Id=t1, Node-Id=n1, Node-Version=v1, Cache-Status=HIT) but
    the session hook never fired, [SaturnReporter.Report] does not
    succeed: [s.Session.Local.String()] panics on the nil interface
    value. *)
Theorem SaturnReporter_Report_panics_without_session :
  first_missing (ResponseHeaders saturn_no_session) Saturn_required = None ∧
  Session.Local (Session saturn_no_session) = None ∧
  (∀ Render, SaturnReporter_Report Render saturn_no_session = Panicked nil_dereference) ∧
  (∀ Render body e, SaturnReporter_Report Render saturn_no_session ≠ Done (body, e)).
Proof.
  split_and!; try by vm_compute.
Qed.

(** ** Panics *)

(** X6: [IpfsGwReporter.Report] panics exactly when both required
    headers pass the nil checks and a session address is nil or one of
    the headers it indexes ([X-Ipfs-Lb-Pop], [X-Ipfs-Pop],
    [X-Proxy-Cache]) is an empty, non-nil slice. *)
Theorem IpfsGwReporter_panics_iff (Render : Table → string) (s : StatsCollector) :
  (∃ msg, IpfsGwReporter_Report Render s = Panicked msg) ↔
  hdr (ResponseHeaders s) "X-Ipfs-Lb-Pop" ≠ None ∧
  hdr (ResponseHeaders s) "X-Ipfs-Pop" ≠ None ∧
  (Session.Local (Session s) = None ∨ Session.Remote (Session s) = None ∨
   hdr (ResponseHeaders s) "X-Ipfs-Lb-Pop" = Some [] ∨
   hdr (ResponseHeaders s) "X-Ipfs-Pop" = Some [] ∨
   hdr (ResponseHeaders s) "X-Proxy-Cache" = Some []).
Proof.
  unfold IpfsGwReporter_Report.
  destruct (hdr (ResponseHeaders s) "X-Ipfs-Lb-Pop") as [[|lb lbs]|];
  destruct (hdr (ResponseHeaders s) "X-Ipfs-Pop") as [[|pop pops]|];
  destruct (Session.Local (Session s)), (Session.Remote (Session s));
  destruct (hdr (ResponseHeaders s) "X-Proxy-Cache") as [[|c cs]|]; simpl;
  (split; [intros [msg H]; try discriminate; split_and!; try done; auto 6
          | intros (H1 & H2 & H3); try done; try (by eexists);
            destruct H3 as [?|[?|[?|[?|?]]]]; done]).
Qed.

(** X7: [SaturnReporter.Report] panics exactly when the four required
    headers pass the nil checks and a session address is nil or one of
    the four headers is an empty, non-nil slice. *)
Theorem SaturnReporter_panics_iff (Render : Table → string) (s : StatsCollector) :
  (∃ msg, SaturnReporter_Report Render s = Panicked msg) ↔
  first_missing (ResponseHeaders s) Saturn_required = None ∧
  (Session.Local (Session s) = None ∨ Session.Remote (Session s) = None ∨
   ∃ k, k ∈ Saturn_required ∧ hdr (ResponseHeaders s) k = Some []).
Proof.
  unfold SaturnReporter_Report, Saturn_required. simpl.
  destruct (hdr (ResponseHeaders s) "Saturn-Transfer-Id") as [[|t ts]|] eqn:Ht;
  destruct (hdr (ResponseHeaders s) "Saturn-Node-Id") as [[|n ns]|] eqn:Hn;
  destruct (hdr (ResponseHeaders s) "Saturn-Node-Version") as [[|v vs]|] eqn:Hv;
  destruct (hdr (ResponseHeaders s) "Saturn-Cache-Status") as [[|c cs]|] eqn:Hc;
  destruct (Session.Local (Session s)), (Session.Remote (Session s)); simpl;
  (split;
   [ intros [msg H]; try discriminate; (split; [done|]); auto;
     right; right;
     first [ by (exists "Saturn-Transfer-Id"; split; [set_solver | done])
           | by (exists "Saturn-Node-Id"; split; [set_solver | done])
           | by (exists "Saturn-Node-Version"; split; [set_solver | done])
           | by (exists "Saturn-Cache-Status"; split; [set_solver | done]) ]
   | intros (H1 & H2); try done; try (by eexists);
     destruct H2 as [?|[?|(k & Hin & Hk)]]; try done;
     repeat (apply elem_of_cons in Hin as [->|Hin]; [congruence|]);
     by apply elem_of_nil in Hin ]).
Qed.

(** C3: a reporter call can panic.  With the required headers in the
    response and the session hook never fired, both gateway reporters
    call [String()] on the nil [Session.Local]; with the session set and
    a required header mapped to an empty, non-nil slice, the index
    expression [[0]] is out of range.  Neither call returns a
    [(string, error)] pair. *)
Theorem Report_panics :
  Session.Local (Session ipfs_no_session) = None ∧
  Session.Local (Session saturn_no_session) = None ∧
  (∀ Render o,
     (Report Render IpfsGwReporter o ipfs_no_session).1 = Panicked nil_dereference) ∧
  (∀ Render o,
     (Report Render SaturnReporter o saturn_no_session).1 = Panicked nil_dereference) ∧
  (∀ Render o,
     (Report Render IpfsGwReporter o ipfs_empty_value).1 = Panicked index_out_of_range).
Proof. split_and!; by vm_compute. Qed.

(** ** HeaderReport *)

Lemma tbl_rows_foldl_Append (rows : list (list string)) (t : Table) :
  tbl_rows (foldl (λ t row, Append row t) t rows) = tbl_rows t ++ rows.
Proof.
  revert t. induction rows as [|row rows IH]; intros t; simpl.
  - by rewrite app_nil_r.
  - rewrite IH. simpl. by rewrite <- app_assoc.
Qed.

Lemma HeaderReporter_table_rows (o : RangeOrder) (s : StatsCollector) :
  tbl_rows (HeaderReporter_table o s) =
  header_rows "Request" (RequestHeaders s) (req_order o) ++
  header_rows "Response" (ResponseHeaders s) (resp_order o).
Proof.
  unfold HeaderReporter_table. simpl. by rewrite !tbl_rows_foldl_Append.
Qed.

(** A multi-valued header gives one row per value, in the order of the
    values, all under its key. *)
Lemma header_rows_key (section : string) (h : Header) (k : string) :
  header_rows section h [k] = (λ v, [section; k; v]) <$> elems (hdr h k).
Proof.
  unfold header_rows. csimpl. rewrite app_nil_r.
  induction (elems (hdr h k)) as [|v vs IH]; csimpl; [done | by rewrite IH].
Qed.

Lemma bind_ext_elem_of {A B} (f g : A → list B) (l : list A) :
  (∀ x, x ∈ l → f x = g x) → l ≫= f = l ≫= g.
Proof.
  induction l as [|x l IH]; intros H; csimpl; [done|].
  rewrite (H x) by left. rewrite IH; [done|]. intros y Hy. apply H. by right.
Qed.

Lemma bind_fmap {A B C} (f : A → B) (g : B → list C) (l : list A) :
  (f <$> l) ≫= g = l ≫= (g ∘ f).
Proof. induction l as [|x l IH]; csimpl; [done | by rewrite IH]. Qed.

(** Whatever order [range] takes, the loop appends the triples of the
    map, each once. *)
Lemma header_rows_triples (section : string) (h : Header) (ks : list string) :
  ranges h ks → header_rows section h ks ≡ₚ header_triples section h.
Proof.
  unfold ranges, header_rows, header_triples. intros Hks.
  rewrite Hks, bind_fmap.
  erewrite bind_ext_elem_of; [done|].
  intros [k vs] Hin. apply elem_of_map_to_list in Hin. simpl.
  unfold hdr. by rewrite Hin.
Qed.

Lemma ranges_empty (ks : list string) : ranges ∅ ks → ks = [].
Proof.
  unfold ranges. rewrite map_to_list_empty. simpl. apply Permutation_nil_r.
Qed.

Lemma ranges_singleton (k : string) (vs : Slice string) (ks : list string) :
  ranges {[ k := vs ]} ks → ks = [k].
Proof.
  unfold ranges. rewrite map_to_list_singleton. simpl. apply Permutation_singleton_r.
Qed.

(** C6: [HeaderReporter.Report] returns a nil error on every pair of
    header maps, and the table it renders holds exactly one row per
    (section, key, value) triple: whatever order the two [range] loops
    take, the rows are the triples of the request headers and of the
    response headers, up to their order.  Request headers
    [{"A": ["1","2"]}] with no response header give the two Request
    rows and no Response row; two empty maps give no row. *)
Theorem HeaderReporter_Report_rows (Render : Table → string) (o : RangeOrder)
    (s : StatsCollector) :
  HeaderReporter_Report Render o s = Done (Render (HeaderReporter_table o s), None) ∧
  (admissible o s →
     tbl_rows (HeaderReporter_table o s) ≡ₚ
       header_triples "Request" (RequestHeaders s) ++
       header_triples "Response" (ResponseHeaders s)) ∧
  (admissible o multi_valued →
     tbl_rows (HeaderReporter_table o multi_valued) =
       [["Request"; "A"; "1"]; ["Request"; "A"; "2"]]) ∧
  (admissible o zero_collector → tbl_rows (HeaderReporter_table o zero_collector) = []).
Proof.
  split_and!.
  - reflexivity.
  - intros [Hreq Hresp]. rewrite HeaderReporter_table_rows.
    by rewrite (header_rows_triples _ _ _ Hreq), (header_rows_triples _ _ _ Hresp).
  - intros [Hreq Hresp]. rewrite HeaderReporter_table_rows.
    apply ranges_singleton in Hreq. apply ranges_empty in Hresp.
    rewrite Hreq, Hresp. by vm_compute.
  - intros [Hreq Hresp]. rewrite HeaderReporter_table_rows.
    apply ranges_empty in Hreq. apply ranges_empty in Hresp.
    by rewrite Hreq, Hresp.
Qed.

Lemma admissible_multi_valued : admissible (mkOrder ["A"] []) multi_valued.
Proof. split; by vm_compute. Qed.

Lemma HeaderReporter_Report_rows_witness :
  tbl_rows (HeaderReporter_table (mkOrder ["A"] []) multi_valued) =
    [["Request"; "A"; "1"]; ["Request"; "A"; "2"]].
Proof.
  apply (HeaderReporter_Report_rows plain_render (mkOrder ["A"] []) multi_valued).
  exact admissible_multi_valued.
Defined.

(** ** Frame and determinism *)

(** No reporter assigns through the collector pointer. *)
Lemma Report_leaves_collector (Render : Table → string) (r : Reporter) (o : RangeOrder)
    (s : StatsCollector) :
  (Report Render r o s).2 = s.
Proof. by destruct r. Qed.

Lemma admissible_two_headers :
  admissible (mkOrder ["A"; "B"] []) two_headers ∧
  admissible (mkOrder ["B"; "A"] []) two_headers.
Proof.
  split; (split; vm_compute; [first [reflexivity | apply perm_swap] | reflexivity]).
Qed.

(** C9, as the claim states it, fails for [HeaderReporter]: the snapshot
    [two_headers] has the request headers A and B, [range] may visit
    them as A, B or as B, A, and the two calls build their rows in
    different orders; a renderer that writes the rows in their order
    returns different strings for the one snapshot. *)
Lemma HeaderReporter_order_counterexample :
  admissible (mkOrder ["A"; "B"] []) two_headers ∧
  admissible (mkOrder ["B"; "A"] []) two_headers ∧
  tbl_rows (HeaderReporter_table (mkOrder ["A"; "B"] []) two_headers) =
    [["Request"; "A"; "1"]; ["Request"; "B"; "2"]] ∧
  tbl_rows (HeaderReporter_table (mkOrder ["B"; "A"] []) two_headers) =
    [["Request"; "B"; "2"]; ["Request"; "A"; "1"]] ∧
  (Report plain_render HeaderReporter (mkOrder ["A"; "B"] []) two_headers).1 ≠
  (Report plain_render HeaderReporter (mkOrder ["B"; "A"] []) two_headers).1.
Proof.
  destruct admissible_two_headers as [H1 H2].
  split_and!; [exact H1 | exact H2 | by vm_compute | by vm_compute |].
  vm_compute. discriminate.
Qed.

(** C9, amended: a [Report] call leaves the collector as it found it,
    so a call made after other reporters ran sees the same snapshot and
    returns what it would have returned before them.  The result of
    [ConnectionReporter], [IpfsGwReporter] and [SaturnReporter] is a
    function of the snapshot alone.  The result of [HeaderReporter] is a
    function of the snapshot and of the order in which [range] visits
    the keys of the two header maps, which Go leaves unspecified: two
    calls on one snapshot build the same rows up to their order. *)
Theorem Report_frame (Render : Table → string) (r r' : Reporter) (o o' : RangeOrder)
    (s : StatsCollector) :
  (Report Render r o s).2 = s ∧
  Report Render r o (Report Render r' o' s).2 = Report Render r o s ∧
  (r ≠ HeaderReporter → Report Render r o s = Report Render r o' s) ∧
  (admissible o s → admissible o' s →
     tbl_rows (HeaderReporter_table o s) ≡ₚ tbl_rows (HeaderReporter_table o' s)).
Proof.
  split_and!.
  - apply Report_leaves_collector.
  - by rewrite Report_leaves_collector.
  - by destruct r.
  - intros [H1 H2] [H1' H2']. rewrite !HeaderReporter_table_rows.
    rewrite (header_rows_triples _ _ _ H1), (header_rows_triples _ _ _ H2).
    by rewrite (header_rows_triples _ _ _ H1'), (header_rows_triples _ _ _ H2').
Qed.

Lemma Report_frame_witness :
  tbl_rows (HeaderReporter_table (mkOrder ["A"; "B"] []) two_headers) ≡ₚ
  tbl_rows (HeaderReporter_table (mkOrder ["B"; "A"] []) two_headers).
Proof.
  apply (Report_frame plain_render HeaderReporter HeaderReporter (mkOrder ["A"; "B"] [])
           (mkOrder ["B"; "A"] []) two_headers);
    apply admissible_two_headers.
Defined.

(** ** Multi-valued headers *)

Lemma hdr_insert (h : Header) (k k' : string) (v : Slice string) :
  hdr (<[k := v]> h) k' = if decide (k = k') then v else hdr h k'.
Proof.
  unfold hdr. rewrite lookup_insert. by destruct (decide (k = k')).
Qed.

(** Replacing the values after the first one of a header changes
    neither what [== nil] nor what [[0]] reads, under any key. *)
Lemma hdr_replace_rest (h : Header) (k k' x : string) (rest rest' : list string) :
  h !! k = Some (Some (x :: rest)) →
  is_nil (hdr (<[k := Some (x :: rest')]> h) k') = is_nil (hdr h k') ∧
  index0 (hdr (<[k := Some (x :: rest')]> h) k') = index0 (hdr h k').
Proof.
  intros Hk. rewrite hdr_insert. destruct (decide (k = k')) as [<-|]; [|done].
  unfold hdr. by rewrite Hk.
Qed.

(** C10: [IpfsGwReporter.Report] and [SaturnReporter.Report] show the
    first value of a response header and nothing of the values after it.
    Whatever header [k] holds a first value [x], required or optional,
    replacing the values that follow [x] by any others leaves the
    outcome of both reporters unchanged.  And the first values are what
    the output is made of: with the session addresses set and a first
    value under each required header, the report on the modified
    snapshot succeeds with the rendering of the one row built from the
    first values of the original one; for [IpfsGwReporter.Report] it is
    followed by the cache line with the first value of [X-Proxy-Cache]
    when that header is there, so that the body contains that value. *)
Theorem Report_first_value_only (Render : Table → string) (s : StatsCollector)
    (k x : string) (rest rest' : list string) :
  ResponseHeaders s !! k = Some (Some (x :: rest)) →
  let s' := set_ResponseHeaders (<[k := Some (x :: rest')]> (ResponseHeaders s)) s in
  IpfsGwReporter_Report Render s' = IpfsGwReporter_Report Render s ∧
  SaturnReporter_Report Render s' = SaturnReporter_Report Render s ∧
  (∀ (l r : Addr) (lb pop : string) (lbs pops : list string),
     Session.Local (Session s) = Some l →
     Session.Remote (Session s) = Some r →
     hdr (ResponseHeaders s) "X-Ipfs-Lb-Pop" = Some (lb :: lbs) →
     hdr (ResponseHeaders s) "X-Ipfs-Pop" = Some (pop :: pops) →
     let t := IpfsGw_table (Addr_String l) (Addr_String r) lb pop in
     (hdr (ResponseHeaders s) "X-Proxy-Cache" = None →
        IpfsGwReporter_Report Render s' = Done (Render t, None)) ∧
     (∀ c cs, hdr (ResponseHeaders s) "X-Proxy-Cache" = Some (c :: cs) →
        IpfsGwReporter_Report Render s' = Done (Render t +:+ IpfsGw_cache_line c, None) ∧
        contains (Render t +:+ IpfsGw_cache_line c) c)) ∧
  (∀ (l r : Addr) (transfer node version cache : string) (ts ns vs cs : list string),
     Session.Local (Session s) = Some l →
     Session.Remote (Session s) = Some r →
     hdr (ResponseHeaders s) "Saturn-Transfer-Id" = Some (transfer :: ts) →
     hdr (ResponseHeaders s) "Saturn-Node-Id" = Some (node :: ns) →
     hdr (ResponseHeaders s) "Saturn-Node-Version" = Some (version :: vs) →
     hdr (ResponseHeaders s) "Saturn-Cache-Status" = Some (cache :: cs) →
     SaturnReporter_Report Render s' =
       Done (Render (Saturn_table (Addr_String l) transfer (Addr_String r) node version
                       cache), None)).
Proof.
  intros Hk s'.
  assert (Hn : ∀ k', is_nil (hdr (ResponseHeaders s') k') = is_nil (hdr (ResponseHeaders s) k'))
    by (intros k'; apply (hdr_replace_rest _ _ k' _ _ rest' Hk)).
  assert (Hi : ∀ k', index0 (hdr (ResponseHeaders s') k') = index0 (hdr (ResponseHeaders s) k'))
    by (intros k'; apply (hdr_replace_rest _ _ k' _ _ rest' Hk)).
  assert (Hs : Session s' = Session s) by done.
  assert (HI : IpfsGwReporter_Report Render s' = IpfsGwReporter_Report Render s).
  { unfold IpfsGwReporter_Report. by rewrite !Hn, !Hi, !Hs. }
  assert (HS : SaturnReporter_Report Render s' = SaturnReporter_Report Render s).
  { unfold SaturnReporter_Report. by rewrite !Hn, !Hi, !Hs. }
  split_and!; [exact HI | exact HS | |].
  - intros l r lb pop lbs pops Hl Hr Hlb Hpop t. rewrite HI. split.
    + intros Hc. unfold IpfsGwReporter_Report. by rewrite Hlb, Hpop, Hl, Hr, Hc.
    + intros c cs Hc. split.
      * unfold IpfsGwReporter_Report. by rewrite Hlb, Hpop, Hl, Hr, Hc.
      * unfold IpfsGw_cache_line.
        rewrite <- (append_assoc (Render t)). apply contains_suffix.
  - intros l r transfer node version cache ts ns vs cs Hl Hr Ht Hnd Hv Hc.
    rewrite HS. unfold SaturnReporter_Report. by rewrite Ht, Hnd, Hv, Hc, Hl, Hr.
Qed.

Lemma Report_first_value_only_witness :
  let s' := set_ResponseHeaders
              (<["X-Proxy-Cache" := Some ["HIT"; "MISS"]]> (ResponseHeaders ipfs_session))
              ipfs_session in
  IpfsGwReporter_Report plain_render s' = IpfsGwReporter_Report plain_render ipfs_session ∧
  SaturnReporter_Report plain_render s' = SaturnReporter_Report plain_render ipfs_session ∧
  IpfsGwReporter_Report plain_render s' =
    Done (plain_render (IpfsGw_table "192.168.0.6:56985" "209.94.90.1:443"
                          "gateway-bank1-sg1" "ipfs-bank5-sg1")
          +:+ IpfsGw_cache_line "HIT", None) ∧
  contains (plain_render (IpfsGw_table "192.168.0.6:56985" "209.94.90.1:443"
                            "gateway-bank1-sg1" "ipfs-bank5-sg1")
            +:+ IpfsGw_cache_line "HIT") "HIT".
Proof.
  destruct (Report_first_value_only plain_render ipfs_session "X-Proxy-Cache" "HIT" []
              ["MISS"] eq_refl) as (HI & HS & Hpos & _).
  destruct (Hpos client_addr gateway_addr "gateway-bank1-sg1" "ipfs-bank5-sg1" [] []
              eq_refl eq_refl eq_refl eq_refl) as [_ Hc].
  destruct (Hc "HIT" [] eq_refl) as [Hbody Hin].
  split_and!; [exact HI | exact HS | exact Hbody | exact Hin].
Defined.

(** ** The dispatch loop *)

(** The catalog is matched by exact, case-sensitive name. *)
Lemma reportersList_names :
  reportersList !! "Connection" = Some ConnectionReporter ∧
  reportersList !! "Header" = Some HeaderReporter ∧
  reportersList !! "IPFSGW" = Some IpfsGwReporter ∧
  reportersList !! "Saturn" = Some SaturnReporter ∧
  reportersList !! "Bogus" = None ∧
  reportersList !! "connection" = None.
Proof. split_and!; by vm_compute. Qed.

(** An unknown name is logged and skipped. *)
Lemma run_reporter_unknown (Render : Table → string) (o : RangeOrder) (rep : string)
    (s : StatsCollector) :
  reportersList !! rep = None →
  run_reporter Render o rep s = (Done [Log ("Unknown reporter '" +:+ rep +:+ "'")], s).
Proof. intros H. unfold run_reporter. by rewrite H. Qed.

Lemma run_reporter_frame (Render : Table → string) (o : RangeOrder) (rep : string)
    (s : StatsCollector) :
  (run_reporter Render o rep s).2 = s.
Proof.
  unfold run_reporter. destruct (reportersList !! rep) as [r|]; [|done].
  pose proof (Report_leaves_collector Render r o s) as Hs.
  destruct (Report Render r o s) as [[[cr [err|]]|msg] s']; simpl in *; by subst.
Qed.

(** A reporter that returns an error writes one line, and the loop goes
    on to the next name. *)
Lemma run_reporter_failed (Render : Table → string) (o : RangeOrder) (rep : string)
    (r : Reporter) (s : StatsCollector) (body err : string) :
  reportersList !! rep = Some r →
  (Report Render r o s).1 = Done (body, Some err) →
  run_reporter Render o rep s =
    (Done [Stdout ("Reporter " +:+ rep +:+ " failed: " +:+ err +:+ nl)], s).
Proof.
  intros Hr H. pose proof (Report_leaves_collector Render r o s) as Hs.
  unfold run_reporter. rewrite Hr.
  destruct (Report Render r o s) as [res s']. simpl in *. by subst.
Qed.

(** X5: when no turn panics, the loop writes, name after name, exactly what
    each name writes when it is requested alone, and it ends normally
    with the collector unchanged: an unknown name or a reporter that
    returns an error takes nothing from the names after it. *)
Theorem run_reporters_isolated (Render : Table → string) (ords : nat → RangeOrder) (i : nat)
    (reqReporters : list string) (s : StatsCollector) (outs : list (list Output)) :
  turns Render ords i reqReporters s = Done <$> outs →
  run_reporters Render ords i reqReporters s = (concat outs, None, s).
Proof.
  revert i outs. induction reqReporters as [|rep rest IH]; intros i outs H; simpl in *.
  - by destruct outs.
  - destruct outs as [|out outs]; [done|]. simpl in H. injection H as H1 H2.
    pose proof (run_reporter_frame Render (ords i) rep s) as Hs.
    destruct (run_reporter Render (ords i) rep s) as [res s']. simpl in *. subst.
    by rewrite (IH _ _ H2).
Qed.

Lemma run_reporters_isolated_witness :
  run_reporters plain_render (λ _, mkOrder [] []) 0 ["Saturn"; "Bogus"; "Connection"]
    ipfs_session =
  ([ Stdout ("Reporter Saturn failed: Header Saturn-Transfer-Id not present in response"
             +:+ nl);
     Log "Unknown reporter 'Bogus'";
     Stdout ("Connection: Session Establishment" +:+ nl);
     Stdout (Description ConnectionReporter +:+ nl);
     Stdout (plain_render (Connection_table ipfs_session) +:+ nl);
     Stdout nl ], None, ipfs_session).
Proof.
  apply (run_reporters_isolated plain_render (λ _, mkOrder [] []) 0
           ["Saturn"; "Bogus"; "Connection"] ipfs_session
           [ [ Stdout ("Reporter Saturn failed: Header Saturn-Transfer-Id not present in response"
                       +:+ nl) ];
             [ Log "Unknown reporter 'Bogus'" ];
             [ Stdout ("Connection: Session Establishment" +:+ nl);
               Stdout (Description ConnectionReporter +:+ nl);
               Stdout (plain_render (Connection_table ipfs_session) +:+ nl);
               Stdout nl ] ]).
  reflexivity.
Defined.


(** ** The body copy *)

Lemma writes_snoc (ws : list (Time * list Byte.byte)) (now : Time) (p : list Byte.byte)
    (c : StatsCollector) :
  writes (ws ++ [(now, p)]) c = (Write now p (writes ws c)).2.
Proof. unfold writes. by rewrite foldl_app. Qed.

Lemma sum_Z_snoc (l : list Z) (x : Z) : sum_Z (l ++ [x]) = sum_Z l + x.
Proof. induction l as [|y l IH]; simpl; [lia | rewrite IH; lia]. Qed.

Lemma total_len_snoc (ws : list (Time * list Byte.byte)) (w : Time * list Byte.byte) :
  total_len (ws ++ [w]) = total_len ws + Z.of_nat (length w.2).
Proof. induction ws as [|v ws IH]; simpl; [lia | rewrite IH; lia]. Qed.

Lemma total_len_nonneg (ws : list (Time * list Byte.byte)) : 0 ≤ total_len ws.
Proof. induction ws as [|v ws IH]; simpl; lia. Qed.

Lemma Write_TotalBytes (now : Time) (p : list Byte.byte) (c : StatsCollector) :
  TotalBytes (Write now p c).2 = wrap_u64 (TotalBytes c + Z.of_nat (length p)).
Proof. unfold Write. by destruct (_ >? _). Qed.

Lemma mod_add_congr (a b n : Z) :
  a mod 2 ^ 64 = b mod 2 ^ 64 → (a + n) mod 2 ^ 64 = (b + n) mod 2 ^ 64.
Proof. intros H. rewrite (Z.add_mod a), (Z.add_mod b), H by lia. done. Qed.

(** One write keeps the account: what it adds to the running total it
    adds to the accumulator, and what it takes from the accumulator it
    puts in the series. *)
Lemma Write_conserved (now : Time) (p : list Byte.byte) (c : StatsCollector) :
  conserved c → conserved (Write now p c).2.
Proof.
  unfold conserved. intros H. rewrite Write_TotalBytes.
  destruct (Z.lt_ge_cases (CurrentSecond c) (Unix now)) as [Hlt|Hge].
  - destruct (Write_later_second now p c Hlt) as (-> & -> & _).
    unfold append, wrap_u64. simpl. rewrite sum_Z_snoc.
    rewrite Z.mod_mod by lia.
    rewrite (Z.add_mod (_ + _) ((0 + _) mod _)), Z.mod_mod, <- Z.add_mod by lia.
    rewrite Z.add_0_l. by apply mod_add_congr.
  - destruct (Write_same_second now p c Hge) as (-> & -> & _).
    unfold wrap_u64. rewrite Z.mod_mod by lia.
    rewrite (Z.add_mod (sum_Z _) ((_ + _) mod _)), Z.mod_mod, <- Z.add_mod by lia.
    rewrite Z.add_assoc. by apply mod_add_congr.
Qed.

Lemma on_event_counters (now : Time) (ev : Trace.Event) (c : StatsCollector) :
  TotalBytes (on_event now ev c) = TotalBytes c ∧
  CurrentSecBytes (on_event now ev c) = CurrentSecBytes c ∧
  PerSecond (on_event now ev c) = PerSecond c ∧
  StartTime (on_event now ev c) = StartTime c ∧
  EndTime (on_event now ev c) = EndTime c ∧
  RequestHeaders (on_event now ev c) = RequestHeaders c ∧
  ResponseHeaders (on_event now ev c) = ResponseHeaders c.
Proof. by destruct ev. Qed.

Lemma fire_counters (tr : list (Time * Trace.Event)) (c : StatsCollector) :
  TotalBytes (fire tr c) = TotalBytes c ∧
  CurrentSecBytes (fire tr c) = CurrentSecBytes c ∧
  PerSecond (fire tr c) = PerSecond c ∧
  StartTime (fire tr c) = StartTime c ∧
  EndTime (fire tr c) = EndTime c ∧
  RequestHeaders (fire tr c) = RequestHeaders c ∧
  ResponseHeaders (fire tr c) = ResponseHeaders c.
Proof.
  revert c. induction tr as [|[now ev] tr IH]; intros c; simpl; [done|].
  destruct (IH (on_event now ev c)) as (-> & -> & -> & -> & -> & -> & ->).
  apply on_event_counters.
Qed.

Lemma writes_frame (ws : list (Time * list Byte.byte)) (c : StatsCollector) :
  StartTime (writes ws c) = StartTime c ∧ EndTime (writes ws c) = EndTime c ∧
  Dns (writes ws c) = Dns c ∧ Tls (writes ws c) = Tls c ∧
  Connection (writes ws c) = Connection c ∧ Session (writes ws c) = Session c ∧
  Request (writes ws c) = Request c ∧ FirstByteTime (writes ws c) = FirstByteTime c ∧
  RequestHeaders (writes ws c) = RequestHeaders c ∧
  ResponseHeaders (writes ws c) = ResponseHeaders c.
Proof.
  induction ws as [|[now p] ws IH] using rev_ind; [done|].
  rewrite writes_snoc. destruct IH as (<- & <- & <- & <- & <- & <- & <- & <- & <- & <-).
  unfold Write. by destruct (_ >? _).
Qed.

Lemma writes_conserved (ws : list (Time * list Byte.byte)) (c : StatsCollector) :
  conserved c → conserved (writes ws c).
Proof.
  intros H. induction ws as [|[now p] ws IH] using rev_ind; [done|].
  rewrite writes_snoc. by apply Write_conserved.
Qed.

Lemma writes_TotalBytes (ws : list (Time * list Byte.byte)) (c : StatsCollector) :
  TotalBytes (writes ws c) mod 2 ^ 64 = (TotalBytes c + total_len ws) mod 2 ^ 64.
Proof.
  induction ws as [|[now p] ws IH] using rev_ind; simpl.
  - by rewrite Z.add_0_r.
  - rewrite writes_snoc, Write_TotalBytes, total_len_snoc. unfold wrap_u64. simpl.
    rewrite Z.mod_mod by lia. rewrite Z.add_assoc. by apply mod_add_congr.
Qed.

Lemma wrap_i64_sub (a b : Z) : wrap_i64 (wrap_i64 a - wrap_i64 b) = wrap_i64 (a - b).
Proof.
  unfold wrap_i64.
  replace ((a + 2 ^ 63) mod 2 ^ 64 - 2 ^ 63 - ((b + 2 ^ 63) mod 2 ^ 64 - 2 ^ 63) + 2 ^ 63)
    with ((a + 2 ^ 63) mod 2 ^ 64 - (b + 2 ^ 63) mod 2 ^ 64 + 2 ^ 63) by lia.
  f_equal.
  rewrite Z.add_mod, Zminus_mod_idemp_l, Zminus_mod_idemp_r, <- Z.add_mod by lia.
  f_equal. lia.
Qed.

Lemma wrap_i64_small (z : Z) : in_int64 z → wrap_i64 z = z.
Proof.
  unfold in_int64, wrap_i64. intros ?. rewrite Z.mod_small by lia. lia.
Qed.

Lemma writes_TotalBytes_range (ws : list (Time * list Byte.byte)) (c : StatsCollector) :
  0 ≤ TotalBytes c < 2 ^ 64 → 0 ≤ TotalBytes (writes ws c) < 2 ^ 64.
Proof.
  intros H. induction ws as [|[now p] ws IH] using rev_ind; [done|].
  rewrite writes_snoc, Write_TotalBytes. unfold wrap_u64. apply Z.mod_pos_bound. lia.
Qed.

(** X8: after the calls of a whole run ([SetRequestHeaders], the trace
    events, [SetResponseHeaders], [Start], the body chunks, [Stop]),
    whatever the events, the chunks and the clock readings were: the
    running total is the number of body bytes modulo 2^64, the series
    and the accumulator add up to the same count, the duration is the
    [int64] difference of the two clock readings, and the header maps
    are the ones that were set. *)
Theorem transfer_accounting (reqh : Header) (tr : list (Time * Trace.Event)) (resph : Header)
    (t_start : Time) (ws : list (Time * list Byte.byte)) (t_stop : Time) :
  let c := transfer reqh tr resph t_start ws t_stop in
  TotalBytesTransferred c = total_len ws mod 2 ^ 64 ∧
  conserved c ∧
  DurationNS c = wrap_i64 (t_stop - t_start) ∧
  RequestHeaders c = reqh ∧
  ResponseHeaders c = resph.
Proof.
  intros c. subst c. unfold transfer, SetRequestHeaders, SetResponseHeaders.
  set (c0 := Start t_start (set_ResponseHeaders resph
                (fire tr (set_RequestHeaders reqh zero_collector)))).
  destruct (fire_counters tr (set_RequestHeaders reqh zero_collector))
    as (HT & HB & HP & HS & HE & Hq & Hr).
  assert (HT0 : TotalBytes c0 = 0) by (subst c0; simpl; by rewrite HT).
  assert (Hc0 : conserved c0).
  { subst c0. unfold conserved. simpl. by rewrite HT, HB, HP. }
  destruct (writes_frame ws c0) as (Hst & Hen & _ & _ & _ & _ & _ & _ & Hrq & Hrs).
  split_and!.
  - unfold TotalBytesTransferred, Stop. simpl.
    pose proof (writes_TotalBytes ws c0) as Hm.
    pose proof (writes_TotalBytes_range ws c0) as Hr'.
    rewrite HT0 in Hm, Hr'. rewrite Z.add_0_l in Hm. rewrite <- Hm.
    symmetry. apply Z.mod_small. apply Hr'. lia.
  - apply (writes_conserved ws) in Hc0. unfold conserved, Stop in *. by simpl.
  - unfold DurationNS, Stop. simpl. rewrite Hst. subst c0. simpl.
    apply wrap_i64_sub.
  - unfold Stop. simpl. rewrite Hrq. subst c0. simpl. by rewrite Hq.
  - unfold Stop. simpl. rewrite Hrs. by subst c0.
Qed.

Lemma Write_exact_account (now : Time) (p : list Byte.byte) (c : StatsCollector) (n : Z) :
  exact_account c n → n + Z.of_nat (length p) < 2 ^ 64 →
  exact_account (Write now p c).2 (n + Z.of_nat (length p)) ∧
  Z.of_nat (length p) ≤ CurrentSecBytes (Write now p c).2.
Proof.
  unfold exact_account. intros (HT & HS & HB & HP) Hlt. rewrite Write_TotalBytes.
  rewrite HT, wrap_u64_small by lia.
  destruct (Z.lt_ge_cases (CurrentSecond c) (Unix now)) as [Hs|Hs].
  - destruct (Write_later_second now p c Hs) as (-> & -> & _).
    rewrite wrap_u64_small by lia. unfold append. simpl. rewrite sum_Z_snoc. lia.
  - destruct (Write_same_second now p c Hs) as (-> & -> & _).
    rewrite wrap_u64_small by lia. lia.
Qed.

Lemma writes_exact_account (ws : list (Time * list Byte.byte)) (c : StatsCollector) (n : Z) :
  exact_account c n → n + total_len ws < 2 ^ 64 →
  exact_account (writes ws c) (n + total_len ws).
Proof.
  intros Hc. induction ws as [|[now p] ws IH] using rev_ind; intros Hlt.
  - simpl. by rewrite Z.add_0_r.
  - rewrite total_len_snoc in *. simpl in *. rewrite writes_snoc, Z.add_assoc.
    pose proof (total_len_nonneg ws).
    apply Write_exact_account; [apply IH|]; lia.
Qed.

(** X9: when fewer than 2^64 body bytes were written, the running total
    after a whole run is exactly their number and the entries of the
    series plus the accumulator add up to it; the series never accounts
    for the bytes of the last chunk, which stay in the accumulator
    ([Stop] flushes nothing). *)
Theorem transfer_exact (reqh : Header) (tr : list (Time * Trace.Event)) (resph : Header)
    (t_start : Time) (ws : list (Time * list Byte.byte)) (t_stop : Time) :
  total_len ws < 2 ^ 64 →
  let c := transfer reqh tr resph t_start ws t_stop in
  TotalBytesTransferred c = total_len ws ∧
  sum_Z (elems (PerSecond c)) + CurrentSecBytes c = total_len ws ∧
  (∀ ws' now p, ws = ws' ++ [(now, p)] →
     Z.of_nat (length p) ≤ CurrentSecBytes c ∧
     sum_Z (elems (PerSecond c)) ≤ total_len ws - Z.of_nat (length p)).
Proof.
  intros Hlt c. subst c. unfold transfer, SetRequestHeaders, SetResponseHeaders.
  set (c0 := Start t_start (set_ResponseHeaders resph
                (fire tr (set_RequestHeaders reqh zero_collector)))).
  destruct (fire_counters tr (set_RequestHeaders reqh zero_collector))
    as (HT & HB & HP & _).
  assert (Hc0 : exact_account c0 0).
  { subst c0. unfold exact_account. simpl. rewrite HT, HB, HP. simpl. lia. }
  pose proof (writes_exact_account ws c0 0 Hc0 ltac:(lia)) as (H1 & H2 & H3 & H4).
  rewrite Z.add_0_l in *.
  split_and!; [done | done |].
  intros ws' now p ->. unfold Stop. simpl.
  rewrite total_len_snoc in *. simpl in *. pose proof (total_len_nonneg ws').
  pose proof (writes_exact_account ws' c0 0 Hc0 ltac:(lia)) as Hw.
  rewrite writes_snoc in *.
  destruct (Write_exact_account now p (writes ws' c0) _ Hw ltac:(lia)) as [_ Hge].
  lia.
Qed.

Lemma transfer_exact_witness :
  let c := transfer ∅ [(100, Trace.GotFirstResponseByte)] ∅ 200
             [(300, bytes 10); (1000000300, bytes 20); (1000000400, bytes 30)] 2000000000 in
  TotalBytesTransferred c = 60 ∧
  sum_Z (elems (PerSecond c)) + CurrentSecBytes c = 60.
Proof.
  pose proof (transfer_exact ∅ [(100, Trace.GotFirstResponseByte)] ∅ 200
             [(300, bytes 10); (1000000300, bytes 20); (1000000400, bytes 30)] 2000000000)
    as H.
  simpl in H. destruct H as (H1 & H2 & _); [by vm_compute|]. split; [exact H1 | exact H2].
Defined.

Lemma Write_series_grows (now : Time) (p : list Byte.byte) (c : StatsCollector) :
  CurrentSecond c ≤ CurrentSecond (Write now p c).2 ∧
  ∃ extra, elems (PerSecond (Write now p c).2) = elems (PerSecond c) ++ extra ∧
           (length extra ≤ 1)%nat ∧
           (Unix now ≤ CurrentSecond c → extra = []) ∧
           (CurrentSecond c < Unix now → extra = [CurrentSecBytes c]).
Proof.
  destruct (Z.lt_ge_cases (CurrentSecond c) (Unix now)) as [Hs|Hs].
  - destruct (Write_later_second now p c Hs) as (-> & _ & ->).
    split; [lia|]. exists [CurrentSecBytes c]. split_and!; [done | done | lia | done].
  - destruct (Write_same_second now p c Hs) as (-> & _ & ->).
    split; [lia|]. exists []. rewrite app_nil_r. split_and!; [done | simpl; lia | done | lia].
Qed.

Lemma writes_series_extends (ws : list (Time * list Byte.byte)) (c : StatsCollector) :
  CurrentSecond c ≤ CurrentSecond (writes ws c) ∧
  ∃ extra, elems (PerSecond (writes ws c)) = elems (PerSecond c) ++ extra ∧
           (length extra ≤ length ws)%nat ∧
           (Forall (λ w, Unix w.1 ≤ CurrentSecond c) ws →
              extra = [] ∧ CurrentSecond (writes ws c) = CurrentSecond c).
Proof.
  induction ws as [|[now p] ws IH] using rev_ind.
  - split; [done|]. exists []. by rewrite app_nil_r.
  - destruct IH as (Hm & extra & He & Hl & Hq). rewrite writes_snoc.
    destruct (Write_series_grows now p (writes ws c)) as (Hm' & x & Hx & Hlx & Hx0 & _).
    split; [lia|]. exists (extra ++ x). rewrite Hx, He, length_app, length_app.
    split_and!; [by rewrite app_assoc | simpl; lia |].
    intros HF. apply Forall_app in HF as [HF Hlast].
    rewrite Forall_singleton in Hlast. simpl in Hlast.
    destruct (Hq HF) as [-> Hc].
    rewrite Hx0 by lia. split; [done|].
    by destruct (Write_same_second now p (writes ws c) ltac:(lia)) as (_ & _ & ->).
Qed.

(** X10: over any sequence of body writes the per-second series only
    grows at its end, by at most one entry per write; the recorded
    second never goes back; and while the clock stays within the
    recorded second (or behind it) the series does not grow at all. *)
Theorem writes_series_grows (ws : list (Time * list Byte.byte)) (c : StatsCollector) :
  CurrentSecond c ≤ CurrentSecond (writes ws c) ∧
  ∃ extra, elems (PerSecond (writes ws c)) = elems (PerSecond c) ++ extra ∧
           (length extra ≤ length ws)%nat ∧
           (Forall (λ w, Unix w.1 ≤ CurrentSecond c) ws →
              extra = [] ∧ CurrentSecond (writes ws c) = CurrentSecond c).
Proof. apply writes_series_extends. Qed.

Lemma writes_series_grows_witness :
  elems (PerSecond (writes [(7100000000, bytes 10); (6900000000, bytes 20)]
                      (FirstByteReceived 7000000000 zero_collector))) = [].
Proof.
  destruct (writes_series_grows [(7100000000, bytes 10); (6900000000, bytes 20)]
              (FirstByteReceived 7000000000 zero_collector)) as (_ & extra & He & _ & Hq).
  rewrite He. destruct Hq as [-> _]; [|reflexivity].
  repeat constructor; by vm_compute.
Defined.

(** X11: on a collector with an empty series and an empty accumulator,
    a first body write that falls in a later second than the recorded
    one (the second of the first response byte, or 0 when that hook
    never fired) puts the entry 0 at the head of the series, and every
    later write leaves it there. *)
Theorem writes_leading_zero (now : Time) (p : list Byte.byte)
    (ws : list (Time * list Byte.byte)) (c : StatsCollector) :
  PerSecond c = None → CurrentSecBytes c = 0 → CurrentSecond c < Unix now →
  elems (PerSecond (writes ((now, p) :: ws) c)) !! 0%nat = Some 0.
Proof.
  intros HP HB Hs. change (writes ((now, p) :: ws) c) with (writes ws (Write now p c).2).
  destruct (writes_series_extends ws (Write now p c).2) as (_ & extra & -> & _).
  destruct (Write_later_second now p c Hs) as (-> & _). by rewrite HP, HB.
Qed.

Lemma writes_leading_zero_witness :
  elems (PerSecond (writes [(1700000000000000000, bytes 10)] zero_collector)) !! 0%nat
  = Some 0.
Proof.
  apply (writes_leading_zero 1700000000000000000 (bytes 10) [] zero_collector);
    by vm_compute.
Defined.

(** ** The trace hooks *)

Lemma fire_app (tr tr' : list (Time * Trace.Event)) (c : StatsCollector) :
  fire (tr ++ tr') c = fire tr' (fire tr c).
Proof. revert c. induction tr as [|[now ev] tr IH]; intros c; simpl; [done | apply IH]. Qed.



Lemma view_other (ph : Phase) (now : Time) (ev : Trace.Event) (c : StatsCollector) :
  phase_of ev ≠ ph → view ph (on_event now ev c) = view ph c.
Proof. destruct ph, ev; simpl; intros H; try done. Qed.

Lemma view_same (ph : Phase) (now : Time) (ev : Trace.Event) (c c' : StatsCollector) :
  view ph c = view ph c' → view ph (on_event now ev c) = view ph (on_event now ev c').
Proof.
  destruct (decide (phase_of ev = ph)) as [<-|Hne].
  - destruct ev; simpl; intros [= H]; by rewrite ?H.
  - intros H. by rewrite !view_other.
Qed.

Lemma fire_view (ph : Phase) (tr : list (Time * Trace.Event)) (c c' : StatsCollector) :
  view ph c = view ph c' → view ph (fire tr c) = view ph (fire (of_phase ph tr) c').
Proof.
  revert c c'. induction tr as [|[now ev] tr IH]; intros c c' H; simpl; [done|].
  unfold of_phase. rewrite filter_cons. simpl.
  destruct (decide (phase_of ev = ph)) as [Heq|Hne]; simpl.
  - apply IH. by apply view_same.
  - apply IH. by rewrite view_other.
Qed.

(** X13: what a run of trace events leaves in the record of a phase
    depends on the events of that phase alone: dropping every other
    event from the trace leaves the same DNS, TLS, connection, session
    and request records and the same first-byte time. *)
Theorem fire_phase_independent (tr : list (Time * Trace.Event)) (c : StatsCollector) :
  Dns (fire tr c) = Dns (fire (of_phase PDns tr) c) ∧
  Tls (fire tr c) = Tls (fire (of_phase PTls tr) c) ∧
  Connection (fire tr c) = Connection (fire (of_phase PConnection tr) c) ∧
  Session (fire tr c) = Session (fire (of_phase PSession tr) c) ∧
  Request (fire tr c) = Request (fire (of_phase PRequest tr) c) ∧
  FirstByteTime (fire tr c) = FirstByteTime (fire (of_phase PFirstByte tr) c).
Proof.
  split_and!.
  - by pose proof (fire_view PDns tr c c eq_refl) as [= ?].
  - by pose proof (fire_view PTls tr c c eq_refl) as [= ?].
  - by pose proof (fire_view PConnection tr c c eq_refl) as [= ?].
  - by pose proof (fire_view PSession tr c c eq_refl) as [= ?].
  - by pose proof (fire_view PRequest tr c c eq_refl) as [= ?].
  - by pose proof (fire_view PFirstByte tr c c eq_refl) as [= ? ?].
Qed.

(** X14: the error of a DNS lookup and the error of a TLS handshake
    reach no field of the collector: a trace and the same trace with
    those errors (and the coalesced flag) cleared leave the same
    collector.  Of the four errors the transport reports, only the ones
    of [ConnectDone] and [WroteRequest] are kept. *)
Theorem fire_passed_on (tr : list (Time * Trace.Event)) (c : StatsCollector) :
  fire (prod_map id passed_on <$> tr) c = fire tr c ∧
  (∀ now network addr err,
     Connection.Error (Connection (on_event now (Trace.ConnectDone network addr err) c))
     = err) ∧
  (∀ now err, Request.Error (Request (on_event now (Trace.WroteRequest err) c)) = err).
Proof.
  split_and!; [|done..].
  revert c. induction tr as [|[now ev] tr IH]; intros c; simpl; [done|].
  rewrite IH. by destruct ev.
Qed.

Lemma fire_no_ConnectDone (tr : list (Time * Trace.Event)) (c : StatsCollector) :
  Forall (λ te, is_ConnectDone te.2 = false) tr →
  Connection.EndTime (Connection (fire tr c)) = Connection.EndTime (Connection c) ∧
  Connection.Error (Connection (fire tr c)) = Connection.Error (Connection c).
Proof.
  revert c. induction tr as [|[now ev] tr IH]; intros c HF; simpl; [done|].
  apply Forall_cons in HF as [Hev HF]. destruct (IH (on_event now ev c) HF) as [-> ->].
  by destruct ev.
Qed.

Lemma fire_no_ConnectStart (tr : list (Time * Trace.Event)) (c : StatsCollector) :
  Forall (λ te, is_ConnectStart te.2 = false) tr →
  Connection.StartTime (Connection (fire tr c)) = Connection.StartTime (Connection c).
Proof.
  revert c. induction tr as [|[now ev] tr IH]; intros c HF; simpl; [done|].
  apply Forall_cons in HF as [Hev HF]. rewrite (IH (on_event now ev c) HF).
  by destruct ev.
Qed.

(** X15: when several connection attempts are traced, the last one
    wins: the connection record keeps the clock reading of the last
    [ConnectStart], and the clock reading and the error of the last
    [ConnectDone], so the error of an earlier failed attempt is gone
    once a later attempt is done. *)
Theorem fire_last_connect (tr tr' : list (Time * Trace.Event)) (now : Time)
    (network addr : string) (err : error) (c : StatsCollector) :
  (Forall (λ te, is_ConnectStart te.2 = false) tr' →
     Connection.StartTime
       (Connection (fire (tr ++ (now, Trace.ConnectStart network addr) :: tr') c))
     = UnixNano now) ∧
  (Forall (λ te, is_ConnectDone te.2 = false) tr' →
     Connection.EndTime
       (Connection (fire (tr ++ (now, Trace.ConnectDone network addr err) :: tr') c))
     = UnixNano now ∧
     Connection.Error
       (Connection (fire (tr ++ (now, Trace.ConnectDone network addr err) :: tr') c))
     = err).
Proof.
  split; intros HF; rewrite fire_app.
  - change (fire ((now, Trace.ConnectStart network addr) :: tr') (fire tr c))
      with (fire tr' (on_event now (Trace.ConnectStart network addr) (fire tr c))).
    by rewrite (fire_no_ConnectStart tr' _ HF).
  - change (fire ((now, Trace.ConnectDone network addr err) :: tr') (fire tr c))
      with (fire tr' (on_event now (Trace.ConnectDone network addr err) (fire tr c))).
    by destruct (fire_no_ConnectDone tr'
                  (on_event now (Trace.ConnectDone network addr err) (fire tr c)) HF)
      as [-> ->].
Qed.

Lemma fire_last_connect_witness :
  Connection.Error
    (Connection
       (fire ([(1, Trace.ConnectStart "tcp" "[::1]:443");
               (2, Trace.ConnectDone "tcp" "[::1]:443" (Some "connection refused"))]
              ++ (4, Trace.ConnectDone "tcp" "127.0.0.1:443" None)
              :: [(5, Trace.GotConn (Some client_addr) (Some gateway_addr))])
          zero_collector))
  = None.
Proof.
  apply (fire_last_connect
           [(1, Trace.ConnectStart "tcp" "[::1]:443");
            (2, Trace.ConnectDone "tcp" "[::1]:443" (Some "connection refused"))]
           [(5, Trace.GotConn (Some client_addr) (Some gateway_addr))]
           4 "tcp" "127.0.0.1:443" None zero_collector).
  repeat constructor.
Defined.

(** ** The [-reporters] flag *)

Lemma Split_nonempty (s : string) (sep : ascii) : Split s sep ≠ [].
Proof.
  destruct s as [|c s]; simpl; [done|].
  destruct (decide (c = sep)); [done|]. by destruct (Split s sep).
Qed.

Lemma concat_cons_cons (sep x y : string) (l : list string) :
  String.concat sep (x :: y :: l) = x +:+ sep +:+ String.concat sep (y :: l).
Proof. reflexivity. Qed.

Lemma Join_Split (s : string) (sep : ascii) :
  String.concat (String sep EmptyString) (Split s sep) = s.
Proof.
  induction s as [|c s IH]; simpl; [done|].
  pose proof (Split_nonempty s sep) as Hne.
  destruct (decide (c = sep)) as [->|Hc].
  - destruct (Split s sep) as [|seg segs]; [done|].
    rewrite concat_cons_cons, IH. done.
  - destruct (Split s sep) as [|seg segs]; [done|].
    destruct segs as [|seg' segs].
    + simpl in *. by rewrite IH.
    + rewrite concat_cons_cons in *. by rewrite <- IH.
Qed.

Lemma Split_no_sep (s : string) (sep : ascii) :
  Forall (λ seg, has_byte sep seg = false) (Split s sep).
Proof.
  induction s as [|c s IH]; simpl; [by repeat constructor|].
  destruct (decide (c = sep)) as [->|Hc]; [by constructor|].
  destruct (Split s sep) as [|seg segs]; [repeat constructor; simpl; by rewrite decide_False|].
  apply Forall_cons in IH as [H1 H2]. constructor; [|done].
  simpl. by rewrite decide_False.
Qed.


Lemma Split_app (a b : string) (sep : ascii) :
  Split (a +:+ String sep b) sep = Split a sep ++ Split b sep.
Proof.
  induction a as [|c a IH].
  - change (EmptyString +:+ String sep b) with (String sep b). simpl.
    by rewrite decide_True.
  - change (String c a +:+ String sep b) with (String c (a +:+ String sep b)). simpl.
    rewrite IH. pose proof (Split_nonempty a sep).
    destruct (decide (c = sep)); [done|]. by destruct (Split a sep).
Qed.




(** X17: the names the loop is given are the segments of the flag
    between its commas: joined with commas they give back the flag, no
    name contains a comma, and the names of two flags joined by a comma
    are the names of the first followed by the names of the second.  An
    empty flag is never split ([main] has left by then); a leading,
    trailing or doubled comma requests the empty name, which is not in
    the catalog and is logged as unknown like any other. *)
Theorem report_phase_segments (flag flag' : string) :
  Join (Split flag comma) = flag ∧
  Forall (λ n, has_byte comma n = false) (Split flag comma) ∧
  Split (flag +:+ String comma flag') comma = Split flag comma ++ Split flag' comma ∧
  Split (flag +:+ String comma EmptyString) comma = Split flag comma ++ [EmptyString] ∧
  Split (String comma flag) comma = EmptyString :: Split flag comma ∧
  reportersList !! EmptyString = None ∧
  (∀ Render ords s, report_phase Render ords EmptyString s = None).
Proof.
  split_and!.
  - apply Join_Split.
  - apply Split_no_sep.
  - apply Split_app.
  - by rewrite Split_app.
  - simpl. by destruct (decide (comma = comma)).
  - by vm_compute.
  - done.
Qed.

(** ** [-reporters list] *)

Lemma sort_Strings_perm (l l' : list string) : l ≡ₚ l' → sort_Strings l = sort_Strings l'.
Proof.
  intros H. unfold sort_Strings. apply (Sorted_unique String.le).
  - apply Sorted_merge_sort; apply _.
  - apply Sorted_merge_sort; apply _.
  - by rewrite !merge_sort_Permutation.
Qed.

(** X18: [-reporters list] prints the names of the catalog in ascending
    order, each once, whatever order [range] visits the map in. *)
Theorem list_reporters_sorted (ks : list string) :
  ks ≡ₚ (map_to_list reportersList).*1 →
  list_reporters ks =
    [ Stdout ("List of reporters:" +:+ nl);
      Stdout ("    Connection" +:+ nl);
      Stdout ("    Header" +:+ nl);
      Stdout ("    IPFSGW" +:+ nl);
      Stdout ("    Saturn" +:+ nl) ].
Proof.
  intros H. unfold list_reporters. rewrite (sort_Strings_perm _ _ H). by vm_compute.
Qed.

Lemma list_reporters_sorted_witness :
  list_reporters ["Saturn"; "Connection"; "IPFSGW"; "Header"] =
    [ Stdout ("List of reporters:" +:+ nl);
      Stdout ("    Connection" +:+ nl);
      Stdout ("    Header" +:+ nl);
      Stdout ("    IPFSGW" +:+ nl);
      Stdout ("    Saturn" +:+ nl) ].
Proof.
  apply (list_reporters_sorted ["Saturn"; "Connection"; "IPFSGW"; "Header"]).
  rewrite <- (merge_sort_Permutation String.le ["Saturn"; "Connection"; "IPFSGW"; "Header"]).
  rewrite <- (merge_sort_Permutation String.le (map_to_list reportersList).*1).
  by vm_compute.
Defined.

(** ** The order of the values of a header *)

Lemma header_rows_cons (section : string) (h : Header) (k : string) (ks : list string) :
  header_rows section h (k :: ks) =
  ((λ v, [section; k; v]) <$> elems (hdr h k)) ++ header_rows section h ks.
Proof.
  unfold header_rows. csimpl. f_equal; try done.
  all: induction (elems (hdr h k)) as [|v vs IH]; csimpl; [done | by rewrite IH].
Qed.

Lemma filter_rows_key (section section' k k' : string) (vs : list string) :
  filter (λ row, row_of section k row) ((λ v, [section'; k'; v]) <$> vs) =
  if decide (section' = section ∧ k' = k) then (λ v, [section'; k'; v]) <$> vs else [].
Proof.
  induction vs as [|v vs IH]; csimpl.
  - by destruct (decide _).
  - rewrite filter_cons, IH. simpl.
    destruct (decide (section' = section ∧ k' = k)) as [He|Hne].
    + rewrite decide_True; [done|]. by apply bool_decide_pack.
    + rewrite decide_False; [done|]. intros H%bool_decide_unpack. done.
Qed.

Lemma filter_header_rows (section section' : string) (h : Header) (k : string)
    (ks : list string) :
  NoDup ks →
  filter (λ row, row_of section k row) (header_rows section' h ks) =
  if decide (section' = section ∧ k ∈ ks)
  then (λ v, [section; k; v]) <$> elems (hdr h k) else [].
Proof.
  induction ks as [|k' ks IH]; intros Hnd.
  - unfold header_rows. csimpl. destruct (decide _) as [[_ H]|]; [|done].
    by apply elem_of_nil in H.
  - apply NoDup_cons in Hnd as [Hk' Hnd].
    rewrite header_rows_cons, filter_app, filter_rows_key, (IH Hnd).
    destruct (decide (section' = section ∧ k' = k)) as [[-> ->]|Hne];
      destruct (decide (_ ∧ k ∈ ks)) as [[He Hin]|Hn];
      destruct (decide (_ ∧ k ∈ _ :: ks)) as [[He' Hin']|Hn']; simpl;
      rewrite ?app_nil_r; try done.
    + destruct Hn'. split; [done | left].
    + destruct Hn'. split; [done | by right].
    + destruct Hn. split; [done|]. apply elem_of_cons in Hin' as [->|?]; [|done].
      by destruct Hne.
Qed.

Lemma ranges_NoDup (h : Header) (ks : list string) : ranges h ks → NoDup ks.
Proof. unfold ranges. intros ->. apply NoDup_fst_map_to_list. Qed.

Lemma ranges_elem_of (h : Header) (ks : list string) (k : string) :
  ranges h ks → k ∈ ks ↔ is_Some (h !! k).
Proof.
  unfold ranges. intros ->. rewrite list_elem_of_fmap. split.
  - intros [[k' v] [-> Hin%elem_of_map_to_list]]. by eexists.
  - intros [v Hv]. exists (k, v). split; [done|]. by apply elem_of_map_to_list.
Qed.

(** X19: in the table of [HeaderReporter.Report], the rows of one
    header are its values in their original order, whatever order
    [range] visits the keys in: the Request rows with key [k] are
    exactly the values of request header [k], first to last, and
    likewise for the Response rows; a header that is missing, nil or
    empty has no row. *)
Theorem HeaderReporter_values_in_order (o : RangeOrder) (s : StatsCollector) (k : string) :
  admissible o s →
  filter (λ row, row_of "Request" k row) (tbl_rows (HeaderReporter_table o s)) =
    (λ v, ["Request"; k; v]) <$> elems (hdr (RequestHeaders s) k) ∧
  filter (λ row, row_of "Response" k row) (tbl_rows (HeaderReporter_table o s)) =
    (λ v, ["Response"; k; v]) <$> elems (hdr (ResponseHeaders s) k).
Proof.
  intros [Hq Hr]. rewrite HeaderReporter_table_rows, !filter_app.
  rewrite !filter_header_rows by eauto using ranges_NoDup.
  assert (Hmiss : ∀ h ks, ranges h ks → k ∉ ks → elems (hdr h k) = []).
  { intros h ks Hks Hk. rewrite (ranges_elem_of h ks k Hks) in Hk.
    unfold hdr. destruct (h !! k); [by destruct Hk | done]. }
  split.
  - rewrite (decide_False (P := "Response" = "Request" ∧ _)) by (by intros [? _]).
    rewrite app_nil_r. destruct (decide _) as [_|Hn]; [done|].
    rewrite (Hmiss _ _ Hq); [done | tauto].
  - rewrite (decide_False (P := "Request" = "Response" ∧ _)) by (by intros [? _]).
    simpl. destruct (decide _) as [_|Hn]; [done|].
    rewrite (Hmiss _ _ Hr); [done | tauto].
Qed.

Lemma HeaderReporter_values_in_order_witness :
  filter (λ row, row_of "Request" "A" row)
    (tbl_rows (HeaderReporter_table (mkOrder ["A"] []) multi_valued)) =
  [["Request"; "A"; "1"]; ["Request"; "A"; "2"]].
Proof.
  apply (HeaderReporter_values_in_order (mkOrder ["A"] []) multi_valued "A").
  split; by vm_compute.
Defined.

(** ** Reports after a whole run *)

Lemma fire_no_GotConn (tr : list (Time * Trace.Event)) (c : StatsCollector) :
  Forall (λ te, is_GotConn te.2 = false) tr →
  Session.Local (Session (fire tr c)) = Session.Local (Session c) ∧
  Session.Remote (Session (fire tr c)) = Session.Remote (Session c).
Proof.
  revert c. induction tr as [|[now ev] tr IH]; intros c HF; simpl; [done|].
  apply Forall_cons in HF as [Hev HF]. destruct (IH (on_event now ev c) HF) as [-> ->].
  by destruct ev.
Qed.

Lemma index0_no_empty (h : Header) (k : string) :
  no_empty_value h → hdr h k ≠ None → ∃ v, index0 (hdr h k) = Done v.
Proof.
  unfold no_empty_value, hdr. intros Hne Hk. specialize (Hne k).
  destruct (h !! k) as [[[|v vs]|]|]; simpl in *; try done. by exists v.
Qed.

Lemma Report_no_panic (Render : Table → string) (r : Reporter) (o : RangeOrder)
    (s : StatsCollector) (l rm : Addr) (msg : string) :
  Session.Local (Session s) = Some l → Session.Remote (Session s) = Some rm →
  no_empty_value (ResponseHeaders s) →
  (Report Render r o s).1 ≠ Panicked msg.
Proof.
  intros Hl Hr Hne. destruct r; simpl; [done | done | |].
  - unfold IpfsGwReporter_Report. rewrite Hl, Hr.
    destruct (hdr (ResponseHeaders s) "X-Ipfs-Lb-Pop") eqn:E1; [|done].
    destruct (hdr (ResponseHeaders s) "X-Ipfs-Pop") eqn:E2; [|done]. simpl.
    destruct (index0_no_empty _ "X-Ipfs-Lb-Pop" Hne) as [v1 H1]; [by rewrite E1|].
    destruct (index0_no_empty _ "X-Ipfs-Pop" Hne) as [v2 H2]; [by rewrite E2|].
    rewrite E1 in H1. rewrite E2 in H2. rewrite H1, H2. simpl.
    destruct (hdr (ResponseHeaders s) "X-Proxy-Cache") eqn:E3; [|done].
    destruct (index0_no_empty _ "X-Proxy-Cache" Hne) as [v3 H3]; [by rewrite E3|].
    rewrite E3 in H3. simpl. by rewrite H3.
  - unfold SaturnReporter_Report. rewrite Hl, Hr.
    destruct (hdr (ResponseHeaders s) "Saturn-Transfer-Id") eqn:E1; [|done].
    destruct (hdr (ResponseHeaders s) "Saturn-Node-Id") eqn:E2; [|done].
    destruct (hdr (ResponseHeaders s) "Saturn-Node-Version") eqn:E3; [|done].
    destruct (hdr (ResponseHeaders s) "Saturn-Cache-Status") eqn:E4; [|done]. simpl.
    destruct (index0_no_empty _ "Saturn-Transfer-Id" Hne) as [v1 H1]; [by rewrite E1|].
    destruct (index0_no_empty _ "Saturn-Node-Id" Hne) as [v2 H2]; [by rewrite E2|].
    destruct (index0_no_empty _ "Saturn-Node-Version" Hne) as [v3 H3]; [by rewrite E3|].
    destruct (index0_no_empty _ "Saturn-Cache-Status" Hne) as [v4 H4]; [by rewrite E4|].
    rewrite E1 in H1. rewrite E2 in H2. rewrite E3 in H3. rewrite E4 in H4.
    by rewrite H1, H2, H3, H4.
Qed.

Lemma run_reporters_no_panic (Render : Table → string) (ords : nat → RangeOrder) (i : nat)
    (reqReporters : list string) (s : StatsCollector) :
  (∀ r o msg, (Report Render r o s).1 ≠ Panicked msg) →
  (run_reporters Render ords i reqReporters s).1.2 = None ∧
  (run_reporters Render ords i reqReporters s).2 = s ∧
  ∃ outs, turns Render ords i reqReporters s = Done <$> outs ∧
          (run_reporters Render ords i reqReporters s).1.1 = concat outs.
Proof.
  intros Hnp. revert i. induction reqReporters as [|rep rest IH]; intros i; simpl.
  - split_and!; [done | done |]. by exists [].
  - pose proof (run_reporter_frame Render (ords i) rep s) as Hs.
    assert (Hd : ∃ out, (run_reporter Render (ords i) rep s).1 = Done out).
    { unfold run_reporter. destruct (reportersList !! rep) as [r|]; [|by eexists].
      specialize (Hnp r (ords i)).
      destruct (Report Render r (ords i) s) as [[[cr [err|]]|msg] s']; simpl in *;
        [by eexists | by eexists | by destruct (Hnp msg)]. }
    destruct Hd as [out Hd].
    destruct (run_reporter Render (ords i) rep s) as [res s']. simpl in *. subst.
    destruct (IH (S i)) as (Hp & Hf & outs & Ht & Ho).
    destruct (run_reporters Render ords (S i) rest s) as [[outs' p] s'']. simpl in *.
    subst. split_and!; [done | done |]. exists (out :: outs). by rewrite Ht.
Qed.

(** X20: after a whole run in which the transport handed over a
    connection with its two addresses (the last [GotConn] of the trace)
    and no response header is mapped to an empty slice, no reporter
    panics on the collector, and the dispatch loop ends normally on
    every batch of names: it writes, name after name, what each name
    writes alone, and leaves the collector as it was. *)
Theorem transfer_reports_complete (Render : Table → string) (ords : nat → RangeOrder)
    (reqh resph : Header) (tr tr' : list (Time * Trace.Event)) (now : Time) (l rm : Addr)
    (t_start : Time) (ws : list (Time * list Byte.byte)) (t_stop : Time)
    (reqReporters : list string) :
  Forall (λ te, is_GotConn te.2 = false) tr' →
  no_empty_value resph →
  let s := transfer reqh (tr ++ (now, Trace.GotConn (Some l) (Some rm)) :: tr') resph
             t_start ws t_stop in
  (∀ r o msg, (Report Render r o s).1 ≠ Panicked msg) ∧
  (run_reporters Render ords 0 reqReporters s).1.2 = None ∧
  (run_reporters Render ords 0 reqReporters s).2 = s ∧
  ∃ outs, turns Render ords 0 reqReporters s = Done <$> outs ∧
          (run_reporters Render ords 0 reqReporters s).1.1 = concat outs.
Proof.
  intros HF Hne s.
  assert (Hnp : ∀ r o msg, (Report Render r o s).1 ≠ Panicked msg).
  { intros r o msg. subst s. unfold transfer, SetRequestHeaders, SetResponseHeaders.
    set (c0 := set_RequestHeaders reqh zero_collector).
    set (trall := tr ++ (now, Trace.GotConn (Some l) (Some rm)) :: tr').
    set (c1 := Start t_start (set_ResponseHeaders resph (fire trall c0))).
    destruct (writes_frame ws c1) as (_ & _ & _ & _ & _ & Hse & _ & _ & _ & Hrs).
    assert (Hs : Session (Stop t_stop (writes ws c1)) = Session (fire trall c0))
      by (unfold Stop; simpl; by rewrite Hse).
    assert (Hr : ResponseHeaders (Stop t_stop (writes ws c1)) = resph)
      by (unfold Stop; simpl; by rewrite Hrs).
    assert (Hlr : Session.Local (Session (fire trall c0)) = Some l ∧
                  Session.Remote (Session (fire trall c0)) = Some rm).
    { subst trall. rewrite fire_app.
      change (fire ((now, Trace.GotConn (Some l) (Some rm)) :: tr') (fire tr c0))
        with (fire tr' (on_event now (Trace.GotConn (Some l) (Some rm)) (fire tr c0))).
      by destruct (fire_no_GotConn tr'
                     (on_event now (Trace.GotConn (Some l) (Some rm)) (fire tr c0)) HF)
        as [-> ->]. }
    destruct Hlr as [Hl Hrm].
    apply (Report_no_panic Render r o _ l rm); [by rewrite Hs | by rewrite Hs | by rewrite Hr]. }
  split; [exact Hnp|]. by apply run_reporters_no_panic.
Qed.

Lemma transfer_reports_complete_witness :
  (run_reporters plain_render (λ _, mkOrder [] []) 0 ["IPFSGW"; "Bogus"; "Connection"]
     (transfer ∅ ([(1, Trace.GetConn "ipfs.io:443")]
                  ++ (2, Trace.GotConn (Some client_addr) (Some gateway_addr))
                  :: [(3, Trace.WroteRequest None); (4, Trace.GotFirstResponseByte)])
        ipfs_headers 5 [(6, bytes 10)] 7)).1.2 = None.
Proof.
  apply (transfer_reports_complete plain_render (λ _, mkOrder [] []) ∅ ipfs_headers
           [(1, Trace.GetConn "ipfs.io:443")]
           [(3, Trace.WroteRequest None); (4, Trace.GotFirstResponseByte)]
           2 client_addr gateway_addr 5 [(6, bytes 10)] 7 ["IPFSGW"; "Bogus"; "Connection"]).
  - by repeat constructor.
  - intros k. unfold ipfs_headers.
    destruct (decide (k = "X-Ipfs-Lb-Pop")) as [->|]; [by vm_compute|].
    destruct (decide (k = "X-Ipfs-Pop")) as [->|]; [by vm_compute|].
    destruct (decide (k = "X-Proxy-Cache")) as [->|]; [by vm_compute|].
    rewrite !lookup_insert_ne by done. by rewrite lookup_singleton_ne.
Defined.
